(** * Lending endpoint of blockatlas: provider dispatch and aggregation

    A shallow embedding of [pkg/blockatlas/lending.go] (the domain model and
    its JSON struct tags) and of the three service functions of the lending
    endpoint ([getProviders], [getRates], [getAccounts]), with the
    properties of the dispatch layer and of the serialized representation
    proved about them. *)

From Stdlib Require Import ZArith NArith Ascii String.
From Stdlib Require Import Floats.PrimFloat Floats.SpecFloat Floats.FloatOps.
From stdpp Require Import base option list strings gmap.

Set Warnings "-register-all".

Local Open Scope string_scope.

(** ** Go values *)

(** A Go slice is either [nil] or a (possibly empty) sequence of elements.
    The two are different values: [[]T{}] is not [nil], and the JSON
    encoder prints them differently. *)
Inductive slice (T : Type) : Type :=
| nil_slice
| slice_of (elems : list T).
Arguments nil_slice {T}.
Arguments slice_of {T} elems.

Definition elements {T} (s : slice T) : list T :=
  match s with
  | nil_slice => []
  | slice_of l => l
  end.

Definition is_nil {T} (s : slice T) : bool :=
  match s with
  | nil_slice => true
  | slice_of _ => false
  end.

(** [append(s, x)]: the result is never [nil]. *)
Definition append {T} (s : slice T) (x : T) : slice T :=
  slice_of (elements s ++ [x]).

(** A Go [error] is [nil] or a value carrying a message ([Error()]). *)
Inductive error : Type :=
| nil_error
| error_value (msg : string).

(** [fmt.Errorf("Unknown provider %v", provider)]: the verb [%v] prints a
    string operand as it is. *)
Definition Errorf_Unknown_provider (provider : string) : error :=
  error_value ("Unknown provider " ++ provider).

Definition float64 := PrimFloat.float.

(** ** Domain model ([pkg/blockatlas/lending.go])

    Field names carry the struct's initials as a prefix where two structs
    of the source share a field name. *)
Module blockatlas.

Definition ProviderType := string.
Definition ProviderTypeLending : ProviderType := "lending".
Definition ProviderTypeStaking : ProviderType := "staking".

Record LendingProviderInfo := {
  lpi_ID : string;
  lpi_Description : string;
  lpi_Image : string;
  lpi_Website : string
}.

Record DefiTokenInfo := {
  dti_Symbol : string;
  dti_Chain : string;
  dti_ContractAddress : string
}.

Record DefiAssetInfo := {
  AssetToken : DefiTokenInfo;
  TechnicalToken : DefiTokenInfo
}.

(** [DefiInfo] is a pointer in the source: [None] is the nil pointer. *)
Record AssetMetaInfo := {
  DefiInfo : option DefiAssetInfo
}.

Record AssetInfo := {
  Symbol : string;
  Description : string;
  APY : float64;
  YieldPeriod : Z;
  YieldFrequency : Z;
  TotalSupply : string;
  MinimumAmount : string;
  MetaInfo : AssetMetaInfo
}.

Record LendingProvider := {
  ID : string;
  Info : LendingProviderInfo;
  Type_ : ProviderType;
  Assets : slice AssetInfo
}.

Record AccountRequest := {
  Addresses : slice string;
  ar_Assets : slice string
}.

Record LendingContract := {
  Asset : AssetInfo;
  CurrentAmount : string
}.

Record AccountLendingContracts := {
  Address : string;
  Contracts : slice LendingContract
}.

(** Modelled from the spec: [RatesRequest] is declared in a file of the
    package that is not part of the sources at hand; the endpoint reads
    its field [Assets], a sequence of asset symbols. *)
Record RatesRequest := {
  rr_Assets : slice string
}.

End blockatlas.

Import blockatlas.

(** ** Backends and the machine state *)

Section Endpoint.

(** What the backends act upon (the network, their caches, ...). *)
Variable World : Type.

(** The rate record returned by [GetCurrentLendingRates]; the endpoint
    never looks inside it. *)
Variable LendingAssetRates : Type.

(** Modelled from the spec: the interface [blockatlas.LendingAPI] is
    declared outside the sources at hand.  It has the three methods the
    endpoint calls; each may read and change the world and returns a Go
    pair (value, error).  A backend is an implementation whose methods
    return: a nil interface value stored in the registry, or a method that
    panics or runs for ever, is outside this model. *)
Record LendingAPI := {
  GetProviderInfo : World -> (LendingProvider * error) * World;
  GetCurrentLendingRates :
    slice string -> World -> (slice LendingAssetRates * error) * World;
  GetAccountLendingContracts :
    AccountRequest -> World -> (slice AccountLendingContracts * error) * World
}.

(** One record per backend method invocation: the registry key of the
    callee, the arguments passed and the pair that came back. *)
Inductive Call : Type :=
| CallGetProviderInfo (k : string) (out : LendingProvider * error)
| CallGetCurrentLendingRates (k : string) (assets : slice string)
    (out : slice LendingAssetRates * error)
| CallGetAccountLendingContracts (k : string) (req : AccountRequest)
    (out : slice AccountLendingContracts * error).

Definition callee (c : Call) : string :=
  match c with
  | CallGetProviderInfo k _ => k
  | CallGetCurrentLendingRates k _ _ => k
  | CallGetAccountLendingContracts k _ _ => k
  end.

(** The machine state: the map object the [apis] argument refers to (Go
    maps are references, so the object lives in the store), the world of
    the backends, and the backend calls made so far, oldest first. *)
Record State := {
  apis : gmap string LendingAPI;
  world : World;
  calls : list Call
}.

Definition M (A : Type) : Type := State -> A * State.

#[global] Instance M_ret : MRet M := fun A a st => (a, st).

#[global] Instance M_bind : MBind M :=
  fun A B f m st => let (a, st') := m st in f a st'.

(** [api, ok := apis[provider]] *)
Definition index_apis (provider : string) : M (option LendingAPI) :=
  fun st => (apis st !! provider, st).

(** Running a backend method: the world moves, the call is logged. *)
Definition invoke {A} (run : World -> A * World) (log : A -> Call) : M A :=
  fun st =>
    let (out, w') := run (world st) in
    (out, {| apis := apis st; world := w'; calls := calls st ++ [log out] |}).

Definition call_GetProviderInfo (k : string) (api : LendingAPI)
  : M (LendingProvider * error) :=
  invoke (GetProviderInfo api) (CallGetProviderInfo k).

Definition call_GetCurrentLendingRates (k : string) (api : LendingAPI)
    (assets : slice string) : M (slice LendingAssetRates * error) :=
  invoke (GetCurrentLendingRates api assets)
         (CallGetCurrentLendingRates k assets).

Definition call_GetAccountLendingContracts (k : string) (api : LendingAPI)
    (req : AccountRequest) : M (slice AccountLendingContracts * error) :=
  invoke (GetAccountLendingContracts api req)
         (CallGetAccountLendingContracts k req).

(** ** The service functions *)

(** [for _, api := range apis]: Go visits the entries of a map in an
    order of the runtime's choosing; [order] is that choice. *)
Definition range_order (m : gmap string LendingAPI)
    (order : list (string * LendingAPI)) : Prop :=
  order ≡ₚ map_to_list m.

(** The body of the loop of [getProviders], over the entries still to be
    visited, with the current value of the variable [ret]. *)
Fixpoint getProviders_loop (order : list (string * LendingAPI))
    (acc : slice LendingProvider) : M (slice LendingProvider) :=
  match order with
  | [] => mret acc
  | (k, api) :: rest =>
      '(prov, err) ← call_GetProviderInfo k api;
      match err with
      | nil_error => getProviders_loop rest (append acc prov)
      | error_value _ => getProviders_loop rest acc
      end
  end.

Definition getProviders (order : list (string * LendingAPI))
  : M (slice LendingProvider * error) :=
  r ← getProviders_loop order (slice_of []);
  mret (r, nil_error).

Definition getRates (provider : string) (req : RatesRequest)
  : M (slice LendingAssetRates * error) :=
  found ← index_apis provider;
  match found with
  | None => mret (nil_slice, Errorf_Unknown_provider provider)
  | Some api => call_GetCurrentLendingRates provider api (rr_Assets req)
  end.

Definition getAccounts (provider : string) (req : AccountRequest)
  : M (slice AccountLendingContracts * error) :=
  found ← index_apis provider;
  match found with
  | None => mret (nil_slice, Errorf_Unknown_provider provider)
  | Some api => call_GetAccountLendingContracts provider api req
  end.

(** ** The listing, in the words of the specification

    Every registered backend is asked once for its provider info, in the
    order of the iteration; [ask_all] is the sequence of these calls with
    what each returned, and the world they leave behind. *)
Fixpoint ask_all (order : list (string * LendingAPI)) (w : World)
  : list Call * World :=
  match order with
  | [] => ([], w)
  | (k, api) :: rest =>
      let (out, w') := GetProviderInfo api w in
      let (cs, w'') := ask_all rest w' in
      (CallGetProviderInfo k out :: cs, w'')
  end.

(** The provider info of a [GetProviderInfo] call that succeeded. *)
Definition succeeded (c : Call) : option LendingProvider :=
  match c with
  | CallGetProviderInfo _ (prov, nil_error) => Some prov
  | _ => None
  end.

(** A backend whose [GetProviderInfo] fails whatever the world. *)
Definition info_unavailable (api : LendingAPI) : Prop :=
  forall w, snd (fst (GetProviderInfo api w)) <> nil_error.

End Endpoint.

Arguments GetProviderInfo {World LendingAssetRates} _ _.
Arguments GetCurrentLendingRates {World LendingAssetRates} _ _ _.
Arguments GetAccountLendingContracts {World LendingAssetRates} _ _ _.
Arguments CallGetProviderInfo {LendingAssetRates} k out.
Arguments CallGetCurrentLendingRates {LendingAssetRates} k assets out.
Arguments CallGetAccountLendingContracts {LendingAssetRates} k req out.
Arguments callee {LendingAssetRates} c.
Arguments apis {World LendingAssetRates} _.
Arguments world {World LendingAssetRates} _.
Arguments calls {World LendingAssetRates} _.
Arguments index_apis {World LendingAssetRates} provider _.
Arguments invoke {World LendingAssetRates A} run log _.
Arguments call_GetProviderInfo {World LendingAssetRates} k api _.
Arguments call_GetCurrentLendingRates {World LendingAssetRates} k api assets _.
Arguments call_GetAccountLendingContracts {World LendingAssetRates} k api req _.
Arguments range_order {World LendingAssetRates} m order.
Arguments getProviders_loop {World LendingAssetRates} order acc _.
Arguments getProviders {World LendingAssetRates} order _.
Arguments getRates {World LendingAssetRates} provider req _.
Arguments getAccounts {World LendingAssetRates} provider req _.
Arguments ask_all {World LendingAssetRates} order w.
Arguments succeeded {LendingAssetRates} c.
Arguments info_unavailable {World LendingAssetRates} api.


(** ** The HTTP handlers

    [ServeProviders], [ServeRates] and [ServeAccount] read the request
    through a [gin.Context] and answer through it.  A handler is modelled
    by what it does to the context, in order, next to what it does to the
    machine state. *)

Module http.

Definition StatusOK : Z := 200.
Definition StatusBadRequest : Z := 400.
Definition StatusNotFound : Z := 404.
Definition StatusInternalServerError : Z := 500.

End http.

Module gin.

(** A path parameter of the route, [gin.Param]. *)
Record Param := {
  Key : string;
  Value : string
}.

(** [Params.Get]: the value of the first parameter of that name. *)
Fixpoint Params_Get (ps : list Param) (name : string) : string * bool :=
  match ps with
  | [] => ("", false)
  | entry :: rest =>
      if String.eqb (Key entry) name then (Value entry, true)
      else Params_Get rest name
  end.

(** What a handler reads from the request: the path parameters, and what
    [c.BindJSON(&req)] makes of the body for the request type of the
    handler, the filled [req] and the error returned. *)
Record Context (Req : Type) := {
  Params : list Param;
  BindJSON : Req * error
}.
Arguments Params {Req} _.
Arguments BindJSON {Req} _.

(** The two shapes of object the handlers render: [gin.H{"error": msg}]
    and [blockatlas.DocsResponse{Docs: docs}].

    Modelled from the spec: [blockatlas.DocsResponse] is declared outside
    the sources at hand; the handlers build it with its one field
    [Docs]. *)
Inductive object (D : Type) : Type :=
| H_error (msg : string)
| DocsResponse (Docs : D).
Arguments H_error {D} msg.
Arguments DocsResponse {D} Docs.

(** What happens to the context: [c.JSON(code, obj)], called by the
    handlers, and the [AbortWithError] that [BindJSON] performs with
    [http.StatusBadRequest] before it returns an error. *)
Inductive Event (D : Type) : Type :=
| AbortWithError (code : Z) (err : error)
| JSON (code : Z) (obj : object D).
Arguments AbortWithError {D} code err.
Arguments JSON {D} code obj.

(** The code of a [c.JSON] call. *)
Definition rendered_code {D} (e : Event D) : option Z :=
  match e with
  | JSON code _ => Some code
  | AbortWithError _ _ => None
  end.

End gin.

Section Handlers.

Variable World : Type.
Variable LendingAssetRates : Type.

(** [ServeProviders]; [&p] is a pointer that is not nil. *)
Definition ServeProviders
    (order : list (string * LendingAPI World LendingAssetRates))
  : M World LendingAssetRates (list (gin.Event (option (slice LendingProvider)))) :=
  '(p, err) ← getProviders order;
  match err with
  | error_value msg =>
      mret [gin.JSON http.StatusInternalServerError (gin.H_error msg)]
  | nil_error =>
      mret [gin.JSON http.StatusOK (gin.DocsResponse (Some p))]
  end.

(** [ServeRates] *)
Definition ServeRates (c : gin.Context RatesRequest)
  : M World LendingAssetRates (list (gin.Event (slice LendingAssetRates))) :=
  let (provider, ok) := gin.Params_Get (gin.Params c) "provider" in
  if negb ok then
    mret [gin.JSON http.StatusNotFound (gin.H_error "Fatal: missing provider")]
  else
    let (req, err) := gin.BindJSON c in
    match err with
    | error_value msg =>
        mret [gin.AbortWithError http.StatusBadRequest err;
              gin.JSON http.StatusInternalServerError
                (gin.H_error ("Invalid request: " ++ msg))]
    | nil_error =>
        '(p, err) ← getRates provider req;
        match err with
        | error_value msg =>
            mret [gin.JSON http.StatusInternalServerError (gin.H_error msg)]
        | nil_error =>
            mret [gin.JSON http.StatusOK (gin.DocsResponse p)]
        end
    end.

(** [ServeAccount]; [&p] is a pointer that is not nil. *)
Definition ServeAccount (c : gin.Context AccountRequest)
  : M World LendingAssetRates (list (gin.Event (option (slice AccountLendingContracts)))) :=
  let (provider, ok) := gin.Params_Get (gin.Params c) "provider" in
  if negb ok then
    mret [gin.JSON http.StatusNotFound (gin.H_error "Fatal: missing provider")]
  else
    let (req, err) := gin.BindJSON c in
    match err with
    | error_value msg =>
        mret [gin.AbortWithError http.StatusBadRequest err;
              gin.JSON http.StatusInternalServerError
                (gin.H_error ("Invalid request: " ++ msg))]
    | nil_error =>
        '(p, err) ← getAccounts provider req;
        match err with
        | error_value msg =>
            mret [gin.JSON http.StatusInternalServerError (gin.H_error msg)]
        | nil_error =>
            mret [gin.JSON http.StatusOK (gin.DocsResponse (Some p))]
        end
    end.

End Handlers.

Arguments ServeProviders {World LendingAssetRates} order _.
Arguments ServeRates {World LendingAssetRates} c _.
Arguments ServeAccount {World LendingAssetRates} c _.

(** ** UTF-8, as [unicode/utf8] reads it *)
Module utf8.

Definition between (lo hi : N) (c : ascii) : bool :=
  ((lo <=? N_of_ascii c) && (N_of_ascii c <=? hi))%N.

(** The table [first] of [unicode/utf8]: what a first byte announces. *)
Inductive first_byte : Type :=
| ascii_byte
| invalid_byte
| leading (size : nat) (lo hi : N).

Definition first (c : ascii) : first_byte :=
  let b := N_of_ascii c in
  (if b <? 0x80 then ascii_byte
   else if b <? 0xC2 then invalid_byte
   else if b <? 0xE0 then leading 2 0x80 0xBF
   else if b =? 0xE0 then leading 3 0xA0 0xBF
   else if b <? 0xED then leading 3 0x80 0xBF
   else if b =? 0xED then leading 3 0x80 0x9F
   else if b <? 0xF0 then leading 3 0x80 0xBF
   else if b =? 0xF0 then leading 4 0x90 0xBF
   else if b <? 0xF4 then leading 4 0x80 0xBF
   else if b =? 0xF4 then leading 4 0x80 0x8F
   else invalid_byte)%N.

Definition continuation : ascii -> bool := between 0x80 0xBF.

(** The width returned by [DecodeRuneInString] on a non-empty string:
    [Some n] for a well-formed rune of [n] bytes, [None] for the answer
    [(RuneError, 1)] given on a malformed one. *)
Definition DecodeRuneInString (s : string) : option nat :=
  match s with
  | EmptyString => None
  | String s0 rest =>
      match first s0 with
      | ascii_byte => Some 1
      | invalid_byte => None
      | leading sz lo hi =>
          match rest with
          | EmptyString => None
          | String s1 rest1 =>
              if negb (between lo hi s1) then None
              else if (sz <=? 2)%nat then Some 2
              else
                match rest1 with
                | EmptyString => None
                | String s2 rest2 =>
                    if negb (continuation s2) then None
                    else if (sz <=? 3)%nat then Some 3
                    else
                      match rest2 with
                      | EmptyString => None
                      | String s3 _ =>
                          if continuation s3 then Some 4 else None
                      end
                end
          end
      end
  end.

(** [ValidString]: every rune is well formed.  [pending] counts the bytes
    of the current rune still to be passed over. *)
Fixpoint valid_from (pending : nat) (s : string) : bool :=
  match s with
  | EmptyString => true
  | String _ rest =>
      match pending with
      | S n => valid_from n rest
      | O =>
          match DecodeRuneInString s with
          | Some (S n) => valid_from n rest
          | _ => false
          end
      end
  end.

Definition ValidString (s : string) : bool := valid_from 0 s.

(** Strings of ASCII only, such as the decimal notation of a number. *)
Fixpoint is_ascii (s : string) : bool :=
  match s with
  | EmptyString => true
  | String c rest => (N_of_ascii c <? 0x80)%N && is_ascii rest
  end.

(** U+FFFD, the replacement character, in UTF-8. *)
Definition RuneError : string :=
  String (ascii_of_N 0xEF)
    (String (ascii_of_N 0xBF) (String (ascii_of_N 0xBD) EmptyString)).

End utf8.

(** ** Decimal notation

    The amounts are numbers in decimal notation: digits, with a sign and a
    decimal point where needed. *)
Definition decimal_char (c : ascii) : bool :=
  utf8.between 48 57 c || Ascii.eqb c "." || Ascii.eqb c "-" || Ascii.eqb c "+".

Fixpoint decimal_string (s : string) : bool :=
  match s with
  | EmptyString => true
  | String c rest => decimal_char c && decimal_string rest
  end.

(** ** JSON, as [encoding/json] writes and reads the structs

    The endpoint hands its results to [encoding/json] (through
    [gin.Context.JSON]), which is driven by the types and the [json:"..."]
    tags of [lending.go].  Documents are kept as trees: the text layer
    (quoting, escapes, white space) is below this model, a string leaf holds
    the bytes that its literal denotes. *)
Module json.

(** A number literal, by the Go value it was printed from: the encoder
    prints an integer field as a decimal integer and a [float64] with the
    shortest digits that read back as the same [float64]. *)
Inductive number : Type :=
| Integer (z : Z)
| Real (f : float64).

Inductive value : Type :=
| Null
| Bool (b : bool)
| Number (n : number)
| String (s : string)
| Array (elems : list value)
| Object (members : list (string * value)).

(** The result of [Marshal]: the document, or an error. *)
Inductive outcome (A : Type) : Type :=
| Done (a : A)
| Failed (e : error).
Arguments Done {A} a.
Arguments Failed {A} e.

#[global] Instance outcome_ret : MRet outcome := fun A a => Done a.

#[global] Instance outcome_bind : MBind outcome :=
  fun A B f m => match m with Done a => f a | Failed e => Failed e end.

(** *** Encoding *)

(** String values "encode as JSON strings coerced to valid UTF-8,
    replacing invalid bytes with the Unicode replacement rune": the loop of
    the string encoder, where [pending] counts the bytes of the current
    well-formed rune still to be copied. *)
Fixpoint coerce_from (pending : nat) (s : string) : string :=
  match s with
  | EmptyString => EmptyString
  | String.String c rest =>
      match pending with
      | S n => String.String c (coerce_from n rest)
      | O =>
          match utf8.DecodeRuneInString s with
          | Some (S n) => String.String c (coerce_from n rest)
          | _ => utf8.RuneError ++ coerce_from 0 rest
          end
      end
  end.

Definition toValidUTF8 (s : string) : string := coerce_from 0 s.

Definition encode_string (s : string) : outcome value :=
  Done (String (toValidUTF8 s)).

Definition encode_int64 (z : Z) : outcome value :=
  Done (Number (Integer z)).

(** [strconv.FormatFloat(f, 'g', -1, 64)] on the values the encoder
    refuses. *)
Definition FormatFloat_special (f : float64) : string :=
  if PrimFloat.is_nan f then "NaN"
  else if PrimFloat.ltb f PrimFloat.zero then "-Inf" else "+Inf".

(** The float encoder: NaN and the infinities are an
    [UnsupportedValueError]. *)
Definition encode_float64 (f : float64) : outcome value :=
  if PrimFloat.is_nan f || PrimFloat.is_infinity f
  then Failed (error_value ("json: unsupported value: " ++ FormatFloat_special f))
  else Done (Number (Real f)).

Fixpoint encode_elements {T} (enc : T -> outcome value) (l : list T)
  : outcome (list value) :=
  match l with
  | [] => Done []
  | x :: rest =>
      v ← enc x;
      vs ← encode_elements enc rest;
      Done (v :: vs)
  end.

(** A nil slice is written [null], any other as an array. *)
Definition encode_slice {T} (enc : T -> outcome value) (s : slice T)
  : outcome value :=
  match s with
  | nil_slice => Done Null
  | slice_of l => vs ← encode_elements enc l; Done (Array vs)
  end.

(** A nil pointer is written [null], any other as its pointee. *)
Definition encode_ptr {T} (enc : T -> outcome value) (p : option T)
  : outcome value :=
  match p with
  | None => Done Null
  | Some x => enc x
  end.

(** [isEmptyValue], by the kind of the field: "false, 0, a nil pointer, a
    nil interface value, and any empty array, slice, map, or string".  A
    struct is of none of these kinds and is never empty. *)
Definition isEmptyValue_string (s : string) : bool :=
  (String.length s =? 0)%nat.

Definition isEmptyValue_ptr {T} (p : option T) : bool :=
  match p with None => true | Some _ => false end.

Definition isEmptyValue_slice {T} (s : slice T) : bool :=
  (length (elements s) =? 0)%nat.

Definition isEmptyValue_int (z : Z) : bool := (z =? 0)%Z.

Definition isEmptyValue_float (f : float64) : bool :=
  PrimFloat.eqb f PrimFloat.zero.

Definition isEmptyValue_struct {T} (x : T) : bool := false.

(** One field of a struct as the encoder sees it: the name and the
    [omitempty] option of its tag, whether its value is empty, and the
    encoding of its value. *)
Record field := {
  name : string;
  omitEmpty : bool;
  empty : bool;
  encoded : outcome value
}.

(** The struct encoder: the fields in the order of their declaration, an
    [omitempty] field skipped when its value is empty. *)
Fixpoint encode_fields (fs : list field) : outcome (list (string * value)) :=
  match fs with
  | [] => Done []
  | f :: rest =>
      if omitEmpty f && empty f then encode_fields rest
      else
        v ← encoded f;
        ms ← encode_fields rest;
        Done ((name f, v) :: ms)
  end.

Definition encode_struct (fs : list field) : outcome value :=
  ms ← encode_fields fs; Done (Object ms).

(** The structs of [lending.go], tag by tag. *)

Definition Marshal_LendingProviderInfo (i : LendingProviderInfo) : outcome value :=
  encode_struct [
    {| name := "id"; omitEmpty := false;
       empty := isEmptyValue_string (lpi_ID i);
       encoded := encode_string (lpi_ID i) |};
    {| name := "description"; omitEmpty := false;
       empty := isEmptyValue_string (lpi_Description i);
       encoded := encode_string (lpi_Description i) |};
    {| name := "image"; omitEmpty := false;
       empty := isEmptyValue_string (lpi_Image i);
       encoded := encode_string (lpi_Image i) |};
    {| name := "website"; omitEmpty := false;
       empty := isEmptyValue_string (lpi_Website i);
       encoded := encode_string (lpi_Website i) |} ].

Definition Marshal_DefiTokenInfo (t : DefiTokenInfo) : outcome value :=
  encode_struct [
    {| name := "symbol"; omitEmpty := false;
       empty := isEmptyValue_string (dti_Symbol t);
       encoded := encode_string (dti_Symbol t) |};
    {| name := "chain"; omitEmpty := false;
       empty := isEmptyValue_string (dti_Chain t);
       encoded := encode_string (dti_Chain t) |};
    {| name := "contract_address"; omitEmpty := true;
       empty := isEmptyValue_string (dti_ContractAddress t);
       encoded := encode_string (dti_ContractAddress t) |} ].

Definition Marshal_DefiAssetInfo (d : DefiAssetInfo) : outcome value :=
  encode_struct [
    {| name := "asset_token"; omitEmpty := true;
       empty := isEmptyValue_struct (AssetToken d);
       encoded := Marshal_DefiTokenInfo (AssetToken d) |};
    {| name := "technical_token"; omitEmpty := true;
       empty := isEmptyValue_struct (TechnicalToken d);
       encoded := Marshal_DefiTokenInfo (TechnicalToken d) |} ].

Definition Marshal_AssetMetaInfo (m : AssetMetaInfo) : outcome value :=
  encode_struct [
    {| name := "defi_info"; omitEmpty := true;
       empty := isEmptyValue_ptr (DefiInfo m);
       encoded := encode_ptr Marshal_DefiAssetInfo (DefiInfo m) |} ].

Definition Marshal_AssetInfo (a : AssetInfo) : outcome value :=
  encode_struct [
    {| name := "symbol"; omitEmpty := false;
       empty := isEmptyValue_string (Symbol a);
       encoded := encode_string (Symbol a) |};
    {| name := "description"; omitEmpty := false;
       empty := isEmptyValue_string (Description a);
       encoded := encode_string (Description a) |};
    {| name := "apy"; omitEmpty := false;
       empty := isEmptyValue_float (APY a);
       encoded := encode_float64 (APY a) |};
    {| name := "yield_period"; omitEmpty := false;
       empty := isEmptyValue_int (YieldPeriod a);
       encoded := encode_int64 (YieldPeriod a) |};
    {| name := "yield_freq"; omitEmpty := false;
       empty := isEmptyValue_int (YieldFrequency a);
       encoded := encode_int64 (YieldFrequency a) |};
    {| name := "total_supply"; omitEmpty := false;
       empty := isEmptyValue_string (TotalSupply a);
       encoded := encode_string (TotalSupply a) |};
    {| name := "minimum_amount"; omitEmpty := false;
       empty := isEmptyValue_string (MinimumAmount a);
       encoded := encode_string (MinimumAmount a) |};
    {| name := "meta_info"; omitEmpty := true;
       empty := isEmptyValue_struct (MetaInfo a);
       encoded := Marshal_AssetMetaInfo (MetaInfo a) |} ].

Definition Marshal_LendingProvider (p : LendingProvider) : outcome value :=
  encode_struct [
    {| name := "id"; omitEmpty := false;
       empty := isEmptyValue_string (ID p);
       encoded := encode_string (ID p) |};
    {| name := "info"; omitEmpty := false;
       empty := isEmptyValue_struct (Info p);
       encoded := Marshal_LendingProviderInfo (Info p) |};
    {| name := "type"; omitEmpty := false;
       empty := isEmptyValue_string (Type_ p);
       encoded := encode_string (Type_ p) |};
    {| name := "assets"; omitEmpty := false;
       empty := isEmptyValue_slice (Assets p);
       encoded := encode_slice Marshal_AssetInfo (Assets p) |} ].

Definition Marshal_LendingContract (c : LendingContract) : outcome value :=
  encode_struct [
    {| name := "asset"; omitEmpty := false;
       empty := isEmptyValue_struct (Asset c);
       encoded := Marshal_AssetInfo (Asset c) |};
    {| name := "current_amount"; omitEmpty := false;
       empty := isEmptyValue_string (CurrentAmount c);
       encoded := encode_string (CurrentAmount c) |} ].

Definition Marshal_AccountLendingContracts (a : AccountLendingContracts)
  : outcome value :=
  encode_struct [
    {| name := "address"; omitEmpty := false;
       empty := isEmptyValue_string (Address a);
       encoded := encode_string (Address a) |};
    {| name := "contracts"; omitEmpty := false;
       empty := isEmptyValue_slice (Contracts a);
       encoded := encode_slice Marshal_LendingContract (Contracts a) |} ].

(** *** Decoding

    [Unmarshal] into a variable of a struct type.  A JSON value that does
    not fit the Go type of its target is skipped and reported as an
    [UnmarshalTypeError]; decoding goes on and the earliest such error is
    the one returned, next to what was decoded. *)

Inductive UnmarshalTypeError : Type :=
| cannot_unmarshal (json_value : string) (go_type : string).

Definition saved : Type := option UnmarshalTypeError.

(** [saveError]: only the first error is kept. *)
Definition saveError (old new : saved) : saved :=
  match old with
  | Some _ => old
  | None => new
  end.

Definition describe (v : value) : string :=
  match v with
  | Null => "null"
  | Bool _ => "bool"
  | Number _ => "number"
  | String _ => "string"
  | Array _ => "array"
  | Object _ => "object"
  end.

Definition mismatch {T} (v : value) (go_type : string) (cur : T) : T * saved :=
  (cur, Some (cannot_unmarshal (describe v) go_type)).

(** [null] leaves a string, a number or a struct as it is.  Unquoting a
    string literal replaces, as the encoder does, the bytes that are not
    UTF-8 by U+FFFD. *)
Definition decode_string (v : value) (cur : string) : string * saved :=
  match v with
  | Null => (cur, None)
  | String s => (toValidUTF8 s, None)
  | _ => mismatch v "string" cur
  end.

Definition int64_min : Z := - 2 ^ 63.
Definition int64_max : Z := 2 ^ 63 - 1.

(** The range of the Go type [int64]. *)
Definition is_int64 (z : Z) : bool :=
  ((int64_min <=? z) && (z <=? int64_max))%Z.

(** A literal with a fraction or an exponent does not fit an integer
    field.  (Of the literals printed from a [float64], Go accepts those
    that happen to be written as plain integers; here a [Real] is always
    taken to have a fraction or an exponent.) *)
Definition decode_int64 (v : value) (cur : Z) : Z * saved :=
  match v with
  | Null => (cur, None)
  | Number (Integer z) =>
      if is_int64 z then (z, None)
      else mismatch v "int64" cur
  | _ => mismatch v "int64" cur
  end.

(** [strconv.ParseFloat] on a decimal integer: the nearest [float64]. *)
Definition ParseFloat_integer (z : Z) : float64 :=
  SF2Prim (binary_normalize prec emax z 0 false).

Definition decode_float64 (v : value) (cur : float64) : float64 * saved :=
  match v with
  | Null => (cur, None)
  | Number (Real f) => (f, None)
  | Number (Integer z) =>
      if PrimFloat.is_infinity (ParseFloat_integer z)
      then mismatch v "float64" cur
      else (ParseFloat_integer z, None)
  | _ => mismatch v "float64" cur
  end.

(** A key of an object selects the field whose name it equals or, failing
    that, the first field whose name it equals once the case of the ASCII
    letters is folded.  (Go folds the case of letters outside ASCII as
    well; no name of [lending.go] and no key written by the encoder has
    any.) *)
Definition upper (c : ascii) : ascii :=
  if utf8.between 97 122 c then ascii_of_N (N_of_ascii c - 32) else c.

Fixpoint foldName (s : string) : string :=
  match s with
  | EmptyString => EmptyString
  | String.String c rest => String.String (upper c) (foldName rest)
  end.

Definition equalFold (a b : string) : bool :=
  String.eqb (foldName a) (foldName b).

Fixpoint lookup_by {F} (same : string -> string -> bool) (key : string)
    (fs : list (string * F)) : option F :=
  match fs with
  | [] => None
  | (n, f) :: rest => if same n key then Some f else lookup_by same key rest
  end.

Definition find_field {F} (fs : list (string * F)) (key : string) : option F :=
  match lookup_by String.eqb key fs with
  | Some f => Some f
  | None => lookup_by equalFold key fs
  end.

(** A decoder stores a JSON value into a Go variable holding [cur]. *)
Definition decoder (T : Type) : Type := value -> T -> T * saved.

(** The decoder of a field, lifted to the struct that holds it. *)
Definition into {T F} (get : T -> F) (set : F -> T -> T) (dec : decoder F)
  : decoder T :=
  fun v t => let '(x, e) := dec v (get t) in (set x t, e).

(** One member of an object: a key that names no field is ignored. *)
Definition decode_member {T} (fs : list (string * decoder T))
    (acc : T * saved) (m : string * value) : T * saved :=
  match find_field fs (fst m) with
  | None => acc
  | Some dec => let '(x, e) := dec (snd m) (fst acc) in (x, saveError (snd acc) e)
  end.

Definition decode_struct {T} (go_type : string)
    (fs : list (string * decoder T)) : decoder T :=
  fun v cur =>
    match v with
    | Null => (cur, None)
    | Object ms => fold_left (decode_member fs) ms (cur, None)
    | _ => mismatch v go_type cur
    end.

(** [null] makes a pointer nil; any other value is decoded into the
    pointee, allocated first when the pointer is nil. *)
Definition decode_ptr {T} (dec : decoder T) (zero : T) : decoder (option T) :=
  fun v cur =>
    match v with
    | Null => (None, None)
    | _ => let '(x, e) := dec v (default zero cur) in (Some x, e)
    end.

(** Zero values and field assignments of the structs. *)

Definition zero_DefiTokenInfo : DefiTokenInfo :=
  {| dti_Symbol := ""; dti_Chain := ""; dti_ContractAddress := "" |}.

Definition zero_DefiAssetInfo : DefiAssetInfo :=
  {| AssetToken := zero_DefiTokenInfo; TechnicalToken := zero_DefiTokenInfo |}.

Definition zero_AssetMetaInfo : AssetMetaInfo := {| DefiInfo := None |}.

Definition zero_AssetInfo : AssetInfo :=
  {| Symbol := ""; Description := ""; APY := PrimFloat.zero;
     YieldPeriod := 0; YieldFrequency := 0;
     TotalSupply := ""; MinimumAmount := "";
     MetaInfo := zero_AssetMetaInfo |}.

Definition zero_LendingContract : LendingContract :=
  {| Asset := zero_AssetInfo; CurrentAmount := "" |}.

Definition set_dti_Symbol (x : string) (t : DefiTokenInfo) : DefiTokenInfo :=
  {| dti_Symbol := x; dti_Chain := dti_Chain t;
     dti_ContractAddress := dti_ContractAddress t |}.

Definition set_dti_Chain (x : string) (t : DefiTokenInfo) : DefiTokenInfo :=
  {| dti_Symbol := dti_Symbol t; dti_Chain := x;
     dti_ContractAddress := dti_ContractAddress t |}.

Definition set_dti_ContractAddress (x : string) (t : DefiTokenInfo)
  : DefiTokenInfo :=
  {| dti_Symbol := dti_Symbol t; dti_Chain := dti_Chain t;
     dti_ContractAddress := x |}.

Definition set_AssetToken (x : DefiTokenInfo) (d : DefiAssetInfo) : DefiAssetInfo :=
  {| AssetToken := x; TechnicalToken := TechnicalToken d |}.

Definition set_TechnicalToken (x : DefiTokenInfo) (d : DefiAssetInfo)
  : DefiAssetInfo :=
  {| AssetToken := AssetToken d; TechnicalToken := x |}.

Definition set_DefiInfo (x : option DefiAssetInfo) (m : AssetMetaInfo)
  : AssetMetaInfo :=
  {| DefiInfo := x |}.

Definition set_Symbol (x : string) (a : AssetInfo) : AssetInfo :=
  {| Symbol := x; Description := Description a; APY := APY a;
     YieldPeriod := YieldPeriod a; YieldFrequency := YieldFrequency a;
     TotalSupply := TotalSupply a; MinimumAmount := MinimumAmount a;
     MetaInfo := MetaInfo a |}.

Definition set_Description (x : string) (a : AssetInfo) : AssetInfo :=
  {| Symbol := Symbol a; Description := x; APY := APY a;
     YieldPeriod := YieldPeriod a; YieldFrequency := YieldFrequency a;
     TotalSupply := TotalSupply a; MinimumAmount := MinimumAmount a;
     MetaInfo := MetaInfo a |}.

Definition set_APY (x : float64) (a : AssetInfo) : AssetInfo :=
  {| Symbol := Symbol a; Description := Description a; APY := x;
     YieldPeriod := YieldPeriod a; YieldFrequency := YieldFrequency a;
     TotalSupply := TotalSupply a; MinimumAmount := MinimumAmount a;
     MetaInfo := MetaInfo a |}.

Definition set_YieldPeriod (x : Z) (a : AssetInfo) : AssetInfo :=
  {| Symbol := Symbol a; Description := Description a; APY := APY a;
     YieldPeriod := x; YieldFrequency := YieldFrequency a;
     TotalSupply := TotalSupply a; MinimumAmount := MinimumAmount a;
     MetaInfo := MetaInfo a |}.

Definition set_YieldFrequency (x : Z) (a : AssetInfo) : AssetInfo :=
  {| Symbol := Symbol a; Description := Description a; APY := APY a;
     YieldPeriod := YieldPeriod a; YieldFrequency := x;
     TotalSupply := TotalSupply a; MinimumAmount := MinimumAmount a;
     MetaInfo := MetaInfo a |}.

Definition set_TotalSupply (x : string) (a : AssetInfo) : AssetInfo :=
  {| Symbol := Symbol a; Description := Description a; APY := APY a;
     YieldPeriod := YieldPeriod a; YieldFrequency := YieldFrequency a;
     TotalSupply := x; MinimumAmount := MinimumAmount a;
     MetaInfo := MetaInfo a |}.

Definition set_MinimumAmount (x : string) (a : AssetInfo) : AssetInfo :=
  {| Symbol := Symbol a; Description := Description a; APY := APY a;
     YieldPeriod := YieldPeriod a; YieldFrequency := YieldFrequency a;
     TotalSupply := TotalSupply a; MinimumAmount := x;
     MetaInfo := MetaInfo a |}.

Definition set_MetaInfo (x : AssetMetaInfo) (a : AssetInfo) : AssetInfo :=
  {| Symbol := Symbol a; Description := Description a; APY := APY a;
     YieldPeriod := YieldPeriod a; YieldFrequency := YieldFrequency a;
     TotalSupply := TotalSupply a; MinimumAmount := MinimumAmount a;
     MetaInfo := x |}.

Definition set_Asset (x : AssetInfo) (c : LendingContract) : LendingContract :=
  {| Asset := x; CurrentAmount := CurrentAmount c |}.

Definition set_CurrentAmount (x : string) (c : LendingContract) : LendingContract :=
  {| Asset := Asset c; CurrentAmount := x |}.

(** The decoders of the structs, tag by tag. *)

Definition decode_DefiTokenInfo : decoder DefiTokenInfo :=
  decode_struct "blockatlas.DefiTokenInfo" [
    ("symbol", into dti_Symbol set_dti_Symbol decode_string);
    ("chain", into dti_Chain set_dti_Chain decode_string);
    ("contract_address",
      into dti_ContractAddress set_dti_ContractAddress decode_string) ].

Definition decode_DefiAssetInfo : decoder DefiAssetInfo :=
  decode_struct "blockatlas.DefiAssetInfo" [
    ("asset_token", into AssetToken set_AssetToken decode_DefiTokenInfo);
    ("technical_token",
      into TechnicalToken set_TechnicalToken decode_DefiTokenInfo) ].

Definition decode_AssetMetaInfo : decoder AssetMetaInfo :=
  decode_struct "blockatlas.AssetMetaInfo" [
    ("defi_info",
      into DefiInfo set_DefiInfo
        (decode_ptr decode_DefiAssetInfo zero_DefiAssetInfo)) ].

Definition decode_AssetInfo : decoder AssetInfo :=
  decode_struct "blockatlas.AssetInfo" [
    ("symbol", into Symbol set_Symbol decode_string);
    ("description", into Description set_Description decode_string);
    ("apy", into APY set_APY decode_float64);
    ("yield_period", into YieldPeriod set_YieldPeriod decode_int64);
    ("yield_freq", into YieldFrequency set_YieldFrequency decode_int64);
    ("total_supply", into TotalSupply set_TotalSupply decode_string);
    ("minimum_amount", into MinimumAmount set_MinimumAmount decode_string);
    ("meta_info", into MetaInfo set_MetaInfo decode_AssetMetaInfo) ].

Definition decode_LendingContract : decoder LendingContract :=
  decode_struct "blockatlas.LendingContract" [
    ("asset", into Asset set_Asset decode_AssetInfo);
    ("current_amount", into CurrentAmount set_CurrentAmount decode_string) ].

(** [var a AssetInfo; err := json.Unmarshal(data, &a)] *)
Definition Unmarshal_AssetInfo (v : value) : AssetInfo * saved :=
  decode_AssetInfo v zero_AssetInfo.

(** [var c LendingContract; err := json.Unmarshal(data, &c)] *)
Definition Unmarshal_LendingContract (v : value) : LendingContract * saved :=
  decode_LendingContract v zero_LendingContract.

(** Serialising, then deserialising what was written. *)
Definition roundtrip_AssetInfo (a : AssetInfo) : outcome (AssetInfo * saved) :=
  v ← Marshal_AssetInfo a; Done (Unmarshal_AssetInfo v).

Definition roundtrip_LendingContract (c : LendingContract)
  : outcome (LendingContract * saved) :=
  v ← Marshal_LendingContract c; Done (Unmarshal_LendingContract v).

(** What a string is after it has been written and read: coerced by the
    encoder, then once more by the decoder; and the structs with their
    strings so treated. *)
Definition reread (s : string) : string := toValidUTF8 (toValidUTF8 s).

Definition reread_DefiTokenInfo (t : DefiTokenInfo) : DefiTokenInfo :=
  {| dti_Symbol := reread (dti_Symbol t);
     dti_Chain := reread (dti_Chain t);
     dti_ContractAddress := reread (dti_ContractAddress t) |}.

Definition reread_DefiAssetInfo (d : DefiAssetInfo) : DefiAssetInfo :=
  {| AssetToken := reread_DefiTokenInfo (AssetToken d);
     TechnicalToken := reread_DefiTokenInfo (TechnicalToken d) |}.

Definition reread_AssetInfo (a : AssetInfo) : AssetInfo :=
  {| Symbol := reread (Symbol a); Description := reread (Description a);
     APY := APY a;
     YieldPeriod := YieldPeriod a; YieldFrequency := YieldFrequency a;
     TotalSupply := reread (TotalSupply a);
     MinimumAmount := reread (MinimumAmount a);
     MetaInfo := {| DefiInfo := reread_DefiAssetInfo <$> DefiInfo (MetaInfo a) |} |}.

Definition reread_LendingContract (c : LendingContract) : LendingContract :=
  {| Asset := reread_AssetInfo (Asset c);
     CurrentAmount := reread (CurrentAmount c) |}.

(** The integer fields of an [AssetInfo] are [int64]: within its range. *)
Definition int64_fields (a : AssetInfo) : bool :=
  is_int64 (YieldPeriod a) && is_int64 (YieldFrequency a).

(** The member of an object under a key, as a reader of the document
    finds it. *)
Definition member (key : string) (v : value) : option value :=
  match v with
  | Object ms => snd <$> List.find (fun m => String.eqb (fst m) key) ms
  | _ => None
  end.

(** *** The other structs of [lending.go], and slices *)

Definition Marshal_AccountRequest (r : AccountRequest) : outcome value :=
  encode_struct [
    {| name := "addresses"; omitEmpty := false;
       empty := isEmptyValue_slice (Addresses r);
       encoded := encode_slice encode_string (Addresses r) |};
    {| name := "assets"; omitEmpty := false;
       empty := isEmptyValue_slice (ar_Assets r);
       encoded := encode_slice encode_string (ar_Assets r) |} ].

(** The elements of an array go, in turn, into the elements the slice
    already has and into fresh zero values beyond them. *)
Fixpoint decode_elements {T} (dec : decoder T) (zero : T) (vs : list value)
    (cur : list T) : list T * saved :=
  match vs with
  | [] => ([], None)
  | v :: vs' =>
      let '(x, e) := dec v (match cur with x :: _ => x | [] => zero end) in
      let '(xs, e') := decode_elements dec zero vs' (tail cur) in
      (x :: xs, saveError e e')
  end.

(** [null] makes a slice nil; an array gives it the length of the array. *)
Definition decode_slice {T} (go_type : string) (dec : decoder T) (zero : T)
  : decoder (slice T) :=
  fun v cur =>
    match v with
    | Null => (nil_slice, None)
    | Array vs =>
        let '(xs, e) := decode_elements dec zero vs (elements cur) in
        (slice_of xs, e)
    | _ => mismatch v go_type cur
    end.

(** A field of the named string type [ProviderType]. *)
Definition decode_ProviderType (v : value) (cur : ProviderType)
  : ProviderType * saved :=
  match v with
  | Null => (cur, None)
  | String s => (toValidUTF8 s, None)
  | _ => mismatch v "blockatlas.ProviderType" cur
  end.

Definition zero_LendingProviderInfo : LendingProviderInfo :=
  {| lpi_ID := ""; lpi_Description := ""; lpi_Image := ""; lpi_Website := "" |}.

Definition zero_LendingProvider : LendingProvider :=
  {| ID := ""; Info := zero_LendingProviderInfo; Type_ := "";
     Assets := nil_slice |}.

Definition zero_AccountRequest : AccountRequest :=
  {| Addresses := nil_slice; ar_Assets := nil_slice |}.

Definition zero_AccountLendingContracts : AccountLendingContracts :=
  {| Address := ""; Contracts := nil_slice |}.

Definition set_lpi_ID (x : string) (i : LendingProviderInfo)
  : LendingProviderInfo :=
  {| lpi_ID := x; lpi_Description := lpi_Description i;
     lpi_Image := lpi_Image i; lpi_Website := lpi_Website i |}.

Definition set_lpi_Description (x : string) (i : LendingProviderInfo)
  : LendingProviderInfo :=
  {| lpi_ID := lpi_ID i; lpi_Description := x;
     lpi_Image := lpi_Image i; lpi_Website := lpi_Website i |}.

Definition set_lpi_Image (x : string) (i : LendingProviderInfo)
  : LendingProviderInfo :=
  {| lpi_ID := lpi_ID i; lpi_Description := lpi_Description i;
     lpi_Image := x; lpi_Website := lpi_Website i |}.

Definition set_lpi_Website (x : string) (i : LendingProviderInfo)
  : LendingProviderInfo :=
  {| lpi_ID := lpi_ID i; lpi_Description := lpi_Description i;
     lpi_Image := lpi_Image i; lpi_Website := x |}.

Definition set_ID (x : string) (p : LendingProvider) : LendingProvider :=
  {| ID := x; Info := Info p; Type_ := Type_ p; Assets := Assets p |}.

Definition set_Info (x : LendingProviderInfo) (p : LendingProvider)
  : LendingProvider :=
  {| ID := ID p; Info := x; Type_ := Type_ p; Assets := Assets p |}.

Definition set_Type (x : ProviderType) (p : LendingProvider) : LendingProvider :=
  {| ID := ID p; Info := Info p; Type_ := x; Assets := Assets p |}.

Definition set_Assets (x : slice AssetInfo) (p : LendingProvider)
  : LendingProvider :=
  {| ID := ID p; Info := Info p; Type_ := Type_ p; Assets := x |}.

Definition set_Addresses (x : slice string) (r : AccountRequest)
  : AccountRequest :=
  {| Addresses := x; ar_Assets := ar_Assets r |}.

Definition set_ar_Assets (x : slice string) (r : AccountRequest)
  : AccountRequest :=
  {| Addresses := Addresses r; ar_Assets := x |}.

Definition set_Address (x : string) (a : AccountLendingContracts)
  : AccountLendingContracts :=
  {| Address := x; Contracts := Contracts a |}.

Definition set_Contracts (x : slice LendingContract)
    (a : AccountLendingContracts) : AccountLendingContracts :=
  {| Address := Address a; Contracts := x |}.

Definition decode_LendingProviderInfo : decoder LendingProviderInfo :=
  decode_struct "blockatlas.LendingProviderInfo" [
    ("id", into lpi_ID set_lpi_ID decode_string);
    ("description", into lpi_Description set_lpi_Description decode_string);
    ("image", into lpi_Image set_lpi_Image decode_string);
    ("website", into lpi_Website set_lpi_Website decode_string) ].

Definition decode_LendingProvider : decoder LendingProvider :=
  decode_struct "blockatlas.LendingProvider" [
    ("id", into ID set_ID decode_string);
    ("info", into Info set_Info decode_LendingProviderInfo);
    ("type", into Type_ set_Type decode_ProviderType);
    ("assets",
      into Assets set_Assets
        (decode_slice "[]blockatlas.AssetInfo" decode_AssetInfo
           zero_AssetInfo)) ].

Definition decode_AccountRequest : decoder AccountRequest :=
  decode_struct "blockatlas.AccountRequest" [
    ("addresses",
      into Addresses set_Addresses (decode_slice "[]string" decode_string ""));
    ("assets",
      into ar_Assets set_ar_Assets (decode_slice "[]string" decode_string "")) ].

Definition decode_AccountLendingContracts : decoder AccountLendingContracts :=
  decode_struct "blockatlas.AccountLendingContracts" [
    ("address", into Address set_Address decode_string);
    ("contracts",
      into Contracts set_Contracts
        (decode_slice "[]blockatlas.LendingContract" decode_LendingContract
           zero_LendingContract)) ].

(** [var x T; err := json.Unmarshal(data, &x)] for these types. *)
Definition Unmarshal_LendingProvider (v : value) : LendingProvider * saved :=
  decode_LendingProvider v zero_LendingProvider.

Definition Unmarshal_AccountRequest (v : value) : AccountRequest * saved :=
  decode_AccountRequest v zero_AccountRequest.

Definition Unmarshal_AccountLendingContracts (v : value)
  : AccountLendingContracts * saved :=
  decode_AccountLendingContracts v zero_AccountLendingContracts.

(** The slices and structs with their strings re-read. *)
Definition reread_slice {T} (f : T -> T) (s : slice T) : slice T :=
  match s with
  | nil_slice => nil_slice
  | slice_of l => slice_of (map f l)
  end.

Definition reread_LendingProvider (p : LendingProvider) : LendingProvider :=
  {| ID := reread (ID p);
     Info := {| lpi_ID := reread (lpi_ID (Info p));
                lpi_Description := reread (lpi_Description (Info p));
                lpi_Image := reread (lpi_Image (Info p));
                lpi_Website := reread (lpi_Website (Info p)) |};
     Type_ := reread (Type_ p);
     Assets := reread_slice reread_AssetInfo (Assets p) |}.

Definition reread_AccountRequest (r : AccountRequest) : AccountRequest :=
  {| Addresses := reread_slice reread (Addresses r);
     ar_Assets := reread_slice reread (ar_Assets r) |}.

Definition reread_AccountLendingContracts (a : AccountLendingContracts)
  : AccountLendingContracts :=
  {| Address := reread (Address a);
     Contracts := reread_slice reread_LendingContract (Contracts a) |}.

(** Values that are what Go says they are and that the encoder keeps as
    they are: strings in UTF-8, integers within [int64], a float that is
    neither NaN nor infinite. *)
Definition plain_DefiTokenInfo (t : DefiTokenInfo) : bool :=
  utf8.ValidString (dti_Symbol t) && utf8.ValidString (dti_Chain t)
  && utf8.ValidString (dti_ContractAddress t).

Definition plain_AssetMetaInfo (m : AssetMetaInfo) : bool :=
  match DefiInfo m with
  | None => true
  | Some d =>
      plain_DefiTokenInfo (AssetToken d) && plain_DefiTokenInfo (TechnicalToken d)
  end.

Definition plain_AssetInfo (a : AssetInfo) : bool :=
  utf8.ValidString (Symbol a) && utf8.ValidString (Description a)
  && utf8.ValidString (TotalSupply a) && utf8.ValidString (MinimumAmount a)
  && plain_AssetMetaInfo (MetaInfo a)
  && int64_fields a
  && PrimFloat.is_finite (APY a).

Definition plain_LendingContract (c : LendingContract) : bool :=
  plain_AssetInfo (Asset c) && utf8.ValidString (CurrentAmount c).

Definition plain_LendingProvider (p : LendingProvider) : bool :=
  utf8.ValidString (ID p)
  && utf8.ValidString (lpi_ID (Info p))
  && utf8.ValidString (lpi_Description (Info p))
  && utf8.ValidString (lpi_Image (Info p))
  && utf8.ValidString (lpi_Website (Info p))
  && utf8.ValidString (Type_ p)
  && forallb plain_AssetInfo (elements (Assets p)).

Definition plain_AccountRequest (r : AccountRequest) : bool :=
  forallb utf8.ValidString (elements (Addresses r))
  && forallb utf8.ValidString (elements (ar_Assets r)).

Definition plain_AccountLendingContracts (a : AccountLendingContracts) : bool :=
  utf8.ValidString (Address a)
  && forallb plain_LendingContract (elements (Contracts a)).

End json.

(** ** Fixtures: a small registry to run the service on *)
Module fixtures.

(** A rate record: asset symbol and yield. *)
Definition Rate : Type := string * float64.

(** The world of the fixtures counts the requests sent upstream. *)
Definition Upstream : Type := nat.

Definition info_a : LendingProvider :=
  {| ID := "a";
     Info := {| lpi_ID := "a"; lpi_Description := "provider a";
                lpi_Image := "https://a.example/logo.png";
                lpi_Website := "https://a.example" |};
     Type_ := ProviderTypeLending;
     Assets := slice_of [
       {| Symbol := "ETH"; Description := "Ether"; APY := 0.5%float;
          YieldPeriod := 0; YieldFrequency := 86400;
          TotalSupply := "1000000000000000000000.000000000000000001";
          MinimumAmount := "0.01";
          MetaInfo := {| DefiInfo := None |} |} ] |}.

Definition ok_backend (p : LendingProvider) : LendingAPI Upstream Rate :=
  {| GetProviderInfo := fun w => ((p, nil_error), S w);
     GetCurrentLendingRates := fun assets w =>
       ((slice_of (map (fun s => (s, 0.5%float)) (elements assets)), nil_error), S w);
     GetAccountLendingContracts := fun req w =>
       ((slice_of (map (fun a => {| Address := a; Contracts := slice_of [] |})
                       (elements (Addresses req))), nil_error), S w) |}.

Definition unavailable : error := error_value "provider unavailable".

Definition failing_backend : LendingAPI Upstream Rate :=
  {| GetProviderInfo := fun w =>
       (({| ID := ""; Info := {| lpi_ID := ""; lpi_Description := "";
                                  lpi_Image := ""; lpi_Website := "" |};
            Type_ := ""; Assets := nil_slice |}, unavailable), S w);
     GetCurrentLendingRates := fun _ w => ((nil_slice, unavailable), S w);
     GetAccountLendingContracts := fun _ w => ((nil_slice, unavailable), S w) |}.

Definition registry_ab : gmap string (LendingAPI Upstream Rate) :=
  {[ "a" := ok_backend info_a; "b" := failing_backend ]}.

Definition registry_down : gmap string (LendingAPI Upstream Rate) :=
  {[ "b" := failing_backend; "c" := failing_backend ]}.

Definition boot (m : gmap string (LendingAPI Upstream Rate))
  : State Upstream Rate :=
  {| apis := m; world := 0; calls := [] |}.

Definition eth_rates : RatesRequest := {| rr_Assets := slice_of ["ETH"] |}.

Definition account_0x1 : AccountRequest :=
  {| Addresses := slice_of ["0x1"]; ar_Assets := nil_slice |}.

(** An asset whose total supply is the single byte 0xFF, which is not
    UTF-8. *)
Definition garbled : AssetInfo :=
  {| Symbol := "ETH"; Description := "Ether"; APY := 0.5%float;
     YieldPeriod := 0; YieldFrequency := 86400;
     TotalSupply := String.String "255"%char EmptyString;
     MinimumAmount := "0.01";
     MetaInfo := {| DefiInfo := None |} |}.

Definition dai_contract : LendingContract :=
  {| Asset :=
       {| Symbol := "DAI"; Description := "Dai"; APY := 0.25%float;
          YieldPeriod := 0; YieldFrequency := 86400;
          TotalSupply := "340282366920938463463374607431768211456.5";
          MinimumAmount := "0.000000000000000001";
          MetaInfo := {| DefiInfo := Some
            {| AssetToken :=
                 {| dti_Symbol := "DAI"; dti_Chain := "ETH";
                    dti_ContractAddress := "0x6b17" |};
               TechnicalToken :=
                 {| dti_Symbol := "cDAI"; dti_Chain := "ETH";
                    dti_ContractAddress := "" |} |} |} |};
     CurrentAmount := "12.300000000000000000" |}.

(** A contract whose amounts are in decimal notation and whose yield was
    computed as 0/0. *)
Definition unpriced : LendingContract :=
  {| Asset :=
       {| Symbol := "DAI"; Description := "Dai"; APY := PrimFloat.nan;
          YieldPeriod := 0; YieldFrequency := 86400;
          TotalSupply := "1000.5";
          MinimumAmount := "0.01";
          MetaInfo := {| DefiInfo := None |} |};
     CurrentAmount := "12.3" |}.

(** A request context whose route carries the provider [id]. *)
Definition for_provider (id : string) : list gin.Param :=
  [{| gin.Key := "provider"; gin.Value := id |}].

(** The positions of the address 0x1: one contract. *)
Definition positions_0x1 : AccountLendingContracts :=
  {| Address := "0x1"; Contracts := slice_of [dai_contract] |}.

End fixtures.

(** * Properties of the dispatch layer *)

Local Open Scope list_scope.

Section EndpointFacts.

Context {World LendingAssetRates : Type}.

Abbreviation St := (State World LendingAssetRates).
Abbreviation API := (LendingAPI World LendingAssetRates).

Implicit Types (st : St) (api : API) (order : list (string * API)).
Implicit Types (provider k : string) (acc : slice LendingProvider).

(** *** The loop of [getProviders] *)

(** What the loop computes: it asks the entries in turn; the variable
    [ret] grows by the infos of the calls that succeeded; the registry is
    not touched. *)
Lemma getProviders_loop_run order (l : list LendingProvider) st :
  getProviders_loop order (slice_of l) st =
  (slice_of (l ++ omap succeeded (ask_all order (world st)).1),
   {| apis := apis st;
      world := (ask_all order (world st)).2;
      calls := calls st ++ (ask_all order (world st)).1 |}).
Proof.
  revert l st. induction order as [|[k api] rest IH]; intros l st.
  - simpl. rewrite !app_nil_r. by destruct st.
  - simpl. unfold mbind, M_bind, call_GetProviderInfo, invoke.
    destruct (GetProviderInfo api (world st)) as [[prov err] w'] eqn:E.
    destruct (ask_all rest w') as [cs w''] eqn:A.
    destruct err as [|msg]; simpl.
    + unfold append; simpl. rewrite IH; simpl. rewrite A; simpl.
      by rewrite <- !app_assoc.
    + rewrite IH; simpl. rewrite A; simpl.
      by rewrite <- !app_assoc.
Qed.

Lemma getProviders_run order st :
  getProviders order st =
  ((slice_of (omap succeeded (ask_all order (world st)).1), nil_error),
   {| apis := apis st;
      world := (ask_all order (world st)).2;
      calls := calls st ++ (ask_all order (world st)).1 |}).
Proof.
  unfold getProviders, mbind, M_bind. by rewrite getProviders_loop_run.
Qed.

Lemma ask_all_callee order (w : World) :
  map callee (ask_all (LendingAssetRates := LendingAssetRates) order w).1
  = map fst order.
Proof.
  revert w. induction order as [|[k api] rest IH]; intros w; simpl; [done|].
  destruct (GetProviderInfo api w) as [out w'].
  specialize (IH w'). destruct (ask_all rest w') as [cs w'']. simpl in *.
  by rewrite IH.
Qed.

Lemma ask_all_unavailable order (w : World) :
  Forall (fun e => info_unavailable e.2) order ->
  omap succeeded (ask_all (LendingAssetRates := LendingAssetRates) order w).1 = [].
Proof.
  intros H. revert w. induction H as [|[k api] rest Hk _ IH]; intros w; simpl; [done|].
  specialize (Hk w). simpl in Hk.
  destruct (GetProviderInfo api w) as [[prov err] w'].
  specialize (IH w'). destruct (ask_all rest w') as [cs w'']. simpl in *.
  by destruct err.
Qed.

Lemma range_order_registered m order k api :
  range_order m order -> (k, api) ∈ order -> m !! k = Some api.
Proof.
  unfold range_order. intros Hp Hin. rewrite Hp in Hin.
  by apply elem_of_map_to_list in Hin.
Qed.

(** *** Single-provider queries *)

(** C1: for a provider identifier that is not a key of the registry,
    [getRates] and [getAccounts] return a nil result with the error
    "Unknown provider <identifier>", and the machine state is what it was:
    no backend method has been invoked, the log of calls has not grown. *)
Theorem unknown_provider_no_backend_call st provider
    (rreq : RatesRequest) (areq : AccountRequest) :
  apis st !! provider = None ->
  getRates provider rreq st
    = ((nil_slice, error_value ("Unknown provider " ++ provider)%string), st) /\
  getAccounts provider areq st
    = ((nil_slice, error_value ("Unknown provider " ++ provider)%string), st) /\
  calls (getRates provider rreq st).2 = calls st /\
  calls (getAccounts provider areq st).2 = calls st.
Proof.
  intros Hnone.
  assert (getRates provider rreq st
    = ((nil_slice, error_value ("Unknown provider " ++ provider)%string), st)) as HR.
  { unfold getRates, mbind, M_bind, index_apis. by rewrite Hnone. }
  assert (getAccounts provider areq st
    = ((nil_slice, error_value ("Unknown provider " ++ provider)%string), st)) as HA.
  { unfold getAccounts, mbind, M_bind, index_apis. by rewrite Hnone. }
  by rewrite HR, HA.
Qed.

(** C4: for a provider identifier that is a key of the registry,
    [getRates] returns the very pair (value, error) that the backend's
    [GetCurrentLendingRates] returns on the request's asset list, and
    [getAccounts] the very pair that its [GetAccountLendingContracts]
    returns on the request; the world is left as the backend left it. *)
Theorem delegated_result_unchanged st provider api
    (rreq : RatesRequest) (areq : AccountRequest) :
  apis st !! provider = Some api ->
  (getRates provider rreq st).1
    = (GetCurrentLendingRates api (rr_Assets rreq) (world st)).1 /\
  world (getRates provider rreq st).2
    = (GetCurrentLendingRates api (rr_Assets rreq) (world st)).2 /\
  (getAccounts provider areq st).1
    = (GetAccountLendingContracts api areq (world st)).1 /\
  world (getAccounts provider areq st).2
    = (GetAccountLendingContracts api areq (world st)).2.
Proof.
  intros Hsome.
  unfold getRates, getAccounts, mbind, M_bind, index_apis.
  rewrite Hsome.
  unfold call_GetCurrentLendingRates, call_GetAccountLendingContracts, invoke.
  destruct (GetCurrentLendingRates api (rr_Assets rreq) (world st)) as [o1 w1].
  destruct (GetAccountLendingContracts api areq (world st)) as [o2 w2].
  done.
Qed.

(** C10: the one backend call made by [getRates] carries the request's
    asset list as it came, and the one made by [getAccounts] the whole
    request as it came, be the lists nil, empty or not: the log grows by
    exactly that call. *)
Theorem request_forwarded_verbatim st provider api
    (rreq : RatesRequest) (areq : AccountRequest) :
  apis st !! provider = Some api ->
  calls (getRates provider rreq st).2
    = calls st ++ [CallGetCurrentLendingRates provider (rr_Assets rreq)
                     (GetCurrentLendingRates api (rr_Assets rreq) (world st)).1] /\
  calls (getAccounts provider areq st).2
    = calls st ++ [CallGetAccountLendingContracts provider areq
                     (GetAccountLendingContracts api areq (world st)).1].
Proof.
  intros Hsome.
  unfold getRates, getAccounts, mbind, M_bind, index_apis.
  rewrite Hsome.
  unfold call_GetCurrentLendingRates, call_GetAccountLendingContracts, invoke.
  destruct (GetCurrentLendingRates api (rr_Assets rreq) (world st)) as [o1 w1].
  destruct (GetAccountLendingContracts api areq (world st)) as [o2 w2].
  done.
Qed.

(** *** The listing *)


(** C3: the sequence returned by [getProviders] is made of the provider
    infos returned by the [GetProviderInfo] calls that succeeded, each as
    it was returned and in the order of the calls, where every registered
    backend is called exactly once: an info is in the result if and only
    if some call returned it with a nil error. *)
Theorem getProviders_collects_successes st order :
  range_order (apis st) order ->
  let asked := (ask_all order (world st)).1 in
  (getProviders order st).1.1 = slice_of (omap succeeded asked) /\
  calls (getProviders order st).2 = calls st ++ asked /\
  map callee asked ≡ₚ (map_to_list (apis st)).*1 /\
  (forall prov,
      prov ∈ elements (getProviders order st).1.1 <->
      exists k, CallGetProviderInfo k (prov, nil_error) ∈ asked).
Proof.
  intros Hord asked. rewrite getProviders_run. simpl.
  split; [done|]. split; [done|]. split.
  - subst asked. rewrite ask_all_callee. unfold range_order in Hord.
    by rewrite Hord.
  - intros prov. fold asked. rewrite list_elem_of_omap. split.
    + intros (c & Hin & Hc). destruct c as [k [p e]| |]; simpl in Hc; try done.
      destruct e; [|done]. inversion Hc; subst. by exists k.
    + intros (k & Hin). by exists (CallGetProviderInfo k (prov, nil_error)).
Qed.


(** *** The registry *)

(** C7: none of the three operations changes the registry: after
    [getProviders], [getRates] or [getAccounts], on any input, the map
    holds the keys and the backends it held before. *)
Theorem registry_unchanged st order provider
    (rreq : RatesRequest) (areq : AccountRequest) :
  apis (getProviders order st).2 = apis st /\
  apis (getRates provider rreq st).2 = apis st /\
  apis (getAccounts provider areq st).2 = apis st.
Proof.
  rewrite getProviders_run. simpl. split; [done|].
  unfold getRates, getAccounts, mbind, M_bind, index_apis.
  destruct (apis st !! provider) as [api|]; [|done].
  unfold call_GetCurrentLendingRates, call_GetAccountLendingContracts, invoke.
  destruct (GetCurrentLendingRates api (rr_Assets rreq) (world st)) as [o1 w1].
  destruct (GetAccountLendingContracts api areq (world st)) as [o2 w2].
  done.
Qed.

End EndpointFacts.

(** * Properties of the serialized representation *)

Section JsonFacts.

Import json.

(** *** Strings *)

(** Valid UTF-8 passes the encoder and the decoder untouched. *)
Lemma coerce_from_valid (s : string) : forall pending,
  utf8.valid_from pending s = true -> coerce_from pending s = s.
Proof.
  induction s as [|c rest IH]; intros pending Hv; [done|].
  destruct pending as [|n].
  - cbn [utf8.valid_from] in Hv. cbn [coerce_from].
    destruct (utf8.DecodeRuneInString (String.String c rest)) as [[|n]|];
      try discriminate.
    by rewrite (IH n Hv).
  - cbn [utf8.valid_from] in Hv. cbn [coerce_from]. by rewrite (IH n Hv).
Qed.

Lemma toValidUTF8_valid (s : string) :
  utf8.ValidString s = true -> toValidUTF8 s = s.
Proof. apply coerce_from_valid. Qed.

Lemma reread_valid (s : string) :
  utf8.ValidString s = true -> reread s = s.
Proof.
  intros Hv. unfold reread. by rewrite !(toValidUTF8_valid s Hv).
Qed.

Lemma is_ascii_ValidString (s : string) :
  utf8.is_ascii s = true -> utf8.ValidString s = true.
Proof.
  unfold utf8.ValidString.
  induction s as [|c rest IH]; [done|].
  cbn [utf8.is_ascii utf8.valid_from utf8.DecodeRuneInString].
  intros [Hc Hrest]%andb_prop. unfold utf8.first. rewrite Hc. by apply IH.
Qed.

(** A well-formed rune is recognised by its own bytes: what follows them
    does not matter. *)
Lemma DecodeRuneInString_copied (c : ascii) (rest : string) (n : nat) :
  utf8.DecodeRuneInString (String.String c rest) = Some (S n) ->
  utf8.DecodeRuneInString (String.String c (coerce_from n rest)) = Some (S n).
Proof.
  cbn [utf8.DecodeRuneInString].
  destruct (utf8.first c) as [| |sz lo hi]; [by intros [= <-]|done|].
  destruct rest as [|s1 rest1]; [done|].
  destruct (negb (utf8.between lo hi s1)) eqn:E1; [done|].
  destruct (sz <=? 2)%nat.
  { intros [= <-]. cbn [coerce_from]. by rewrite ?E1. }
  destruct rest1 as [|s2 rest2]; [done|].
  destruct (negb (utf8.continuation s2)) eqn:E2; [done|].
  destruct (sz <=? 3)%nat.
  { intros [= <-]. cbn [coerce_from]. by rewrite ?E1, ?E2. }
  destruct rest2 as [|s3 rest3]; [done|].
  destruct (utf8.continuation s3) eqn:E3; [|done].
  intros [= <-]. cbn [coerce_from]. by rewrite ?E1, ?E2, ?E3.
Qed.

(** What the encoder writes is valid UTF-8. *)
Lemma coerce_from_is_valid (s : string) : forall pending,
  utf8.valid_from pending (coerce_from pending s) = true.
Proof.
  induction s as [|c rest IH]; intros pending; [done|].
  destruct pending as [|n]; [|cbn [coerce_from utf8.valid_from]; apply IH].
  cbn [coerce_from].
  destruct (utf8.DecodeRuneInString (String.String c rest)) as [[|n]|] eqn:D.
  - apply (IH 0%nat).
  - cbn [utf8.valid_from]. rewrite (DecodeRuneInString_copied c rest n D).
    apply IH.
  - apply (IH 0%nat).
Qed.

Lemma toValidUTF8_is_valid (s : string) :
  utf8.ValidString (toValidUTF8 s) = true.
Proof. apply coerce_from_is_valid. Qed.

(** The strings that the encoder leaves alone are the valid ones. *)
Lemma toValidUTF8_fixed (s : string) :
  toValidUTF8 s = s <-> utf8.ValidString s = true.
Proof.
  split.
  - intros <-. apply toValidUTF8_is_valid.
  - apply toValidUTF8_valid.
Qed.

(** Reading back what was written coerces nothing more. *)
Lemma reread_toValidUTF8 (s : string) : reread s = toValidUTF8 s.
Proof.
  unfold reread. apply toValidUTF8_valid, toValidUTF8_is_valid.
Qed.

(** *** Round trips of the structs *)

Lemma Done_inj {A} (a b : A) : Done a = Done b -> a = b.
Proof. by intros [= ->]. Qed.

(** The encoder is run on a struct whose optional parts are known; what
    is left to decide is whether the float is one it refuses. *)
Ltac run_Marshal_AssetInfo :=
  match goal with
  | |- context [Marshal_AssetInfo ?a] =>
      let m := eval lazy -[toValidUTF8 PrimFloat.is_nan PrimFloat.is_infinity orb]
               in (Marshal_AssetInfo a) in
      change (Marshal_AssetInfo a) with m
  end;
  match goal with
  | |- context [PrimFloat.is_nan ?f || PrimFloat.is_infinity ?f] =>
      destruct (PrimFloat.is_nan f || PrimFloat.is_infinity f)
  end;
  cbv beta iota delta [mbind outcome_bind];
  [discriminate|];
  let H := fresh in intros H; apply Done_inj in H; subst.

(** The decoder is run member by member, on the pair (struct, saved error)
    reached so far; [rew] settles the tests that do not compute. *)
Ltac run_members rew :=
  cbn [fold_left];
  repeat match goal with
  | |- context [decode_member ?fs (?x, ?e) (?k, ?v)] =>
      let t := eval lazy -[toValidUTF8 reread is_int64 decode_AssetInfo
                           zero_AssetInfo reread_AssetInfo]
               in (decode_member fs (x, e) (k, v)) in
      change (decode_member fs (x, e) (k, v)) with t;
      rew; cbv beta iota
  end.

(** An [AssetInfo] that was written comes back with no error, its strings
    re-read, the rest as it was. *)
Lemma roundtrip_AssetInfo_reread (a : AssetInfo) (r : AssetInfo * saved) :
  int64_fields a = true ->
  roundtrip_AssetInfo a = Done r ->
  r = (reread_AssetInfo a, None).
Proof.
  intros Hr. apply andb_prop in Hr as [Hp Hf].
  destruct a as [sym desc apy yp yf ts ma [[[[s1 c1 [|x1 a1]] [s2 c2 [|x2 a2]]]|]]];
    cbn [YieldPeriod YieldFrequency] in Hp, Hf;
    unfold roundtrip_AssetInfo;
    run_Marshal_AssetInfo;
    unfold Unmarshal_AssetInfo, decode_AssetInfo, decode_struct;
    run_members ltac:(rewrite ?Hp, ?Hf);
    reflexivity.
Qed.

Lemma roundtrip_LendingContract_reread (c : LendingContract)
    (r : LendingContract * saved) :
  int64_fields (Asset c) = true ->
  roundtrip_LendingContract c = Done r ->
  r = (reread_LendingContract c, None).
Proof.
  destruct c as [a amount]. cbn [Asset]. intros Hr.
  unfold roundtrip_LendingContract, Marshal_LendingContract, encode_struct.
  cbn [encode_fields omitEmpty empty encoded name isEmptyValue_struct andb
       mbind outcome_bind Asset CurrentAmount encode_string].
  destruct (Marshal_AssetInfo a) as [va|e] eqn:EM; [|discriminate].
  intros H; apply Done_inj in H; subst r.
  assert (decode_AssetInfo va zero_AssetInfo = (reread_AssetInfo a, None)) as Ha.
  { apply (roundtrip_AssetInfo_reread a _ Hr).
    unfold roundtrip_AssetInfo. by rewrite EM. }
  unfold Unmarshal_LendingContract, decode_LendingContract, decode_struct.
  run_members ltac:(rewrite ?Ha).
  reflexivity.
Qed.

(** *** What is written *)

(** The members of a written [AssetInfo]: the two amounts are JSON
    strings, and [meta_info] is always there, an object. *)
Lemma Marshal_AssetInfo_members (a : AssetInfo) (v : value) :
  Marshal_AssetInfo a = Done v ->
  member "total_supply" v = Some (String (toValidUTF8 (TotalSupply a))) /\
  member "minimum_amount" v = Some (String (toValidUTF8 (MinimumAmount a))) /\
  exists ms, member "meta_info" v = Some (Object ms) /\
             (DefiInfo (MetaInfo a) = None -> ms = []).
Proof.
  destruct a as [sym desc apy yp yf ts ma [[[[s1 c1 [|x1 a1]] [s2 c2 [|x2 a2]]]|]]];
    run_Marshal_AssetInfo; cbn [TotalSupply MinimumAmount];
    (split; [reflexivity|]); (split; [reflexivity|]);
    eexists; (split; [reflexivity|]); cbn [MetaInfo DefiInfo]; done.
Qed.

Lemma Marshal_LendingContract_members (c : LendingContract) (v : value) :
  Marshal_LendingContract c = Done v ->
  member "current_amount" v = Some (String (toValidUTF8 (CurrentAmount c))) /\
  exists va, member "asset" v = Some va /\ Marshal_AssetInfo (Asset c) = Done va.
Proof.
  destruct c as [a amount].
  unfold Marshal_LendingContract, encode_struct.
  cbn [encode_fields omitEmpty empty encoded name isEmptyValue_struct andb
       mbind outcome_bind Asset CurrentAmount encode_string].
  destruct (Marshal_AssetInfo a) as [va|e]; [|discriminate].
  intros H; apply Done_inj in H; subst v.
  split; [reflexivity|]. by exists va.
Qed.

Lemma encode_elements_Forall2 {T} (enc : T -> outcome value) (l : list T)
    (vs : list value) :
  encode_elements enc l = Done vs ->
  Forall2 (fun x v => enc x = Done v) l vs.
Proof.
  revert vs. induction l as [|x rest IH]; intros vs; cbn [encode_elements].
  - intros H; apply Done_inj in H; subst vs. constructor.
  - unfold mbind, outcome_bind.
    destruct (enc x) as [v|e] eqn:Hx; [|discriminate].
    destruct (encode_elements enc rest) as [vs'|e]; [|discriminate].
    intros H; apply Done_inj in H; subst vs. constructor; [done|]. by apply IH.
Qed.

(** The member [assets] of a written provider: the assets, one by one. *)
Lemma Marshal_LendingProvider_assets (p : LendingProvider) (v : value)
    (l : list AssetInfo) :
  Assets p = slice_of l ->
  Marshal_LendingProvider p = Done v ->
  exists vs, member "assets" v = Some (Array vs) /\
             Forall2 (fun a va => Marshal_AssetInfo a = Done va) l vs.
Proof.
  destruct p as [id [i1 i2 i3 i4] ty assets]. cbn [Assets]. intros ->.
  unfold Marshal_LendingProvider, encode_struct.
  cbn [encode_fields omitEmpty empty encoded name andb mbind outcome_bind
       encode_string ID Info Type_ Assets encode_slice].
  change (Marshal_LendingProviderInfo
            {| lpi_ID := i1; lpi_Description := i2;
               lpi_Image := i3; lpi_Website := i4 |})
    with (Done (Object [("id", String (toValidUTF8 i1));
                        ("description", String (toValidUTF8 i2));
                        ("image", String (toValidUTF8 i3));
                        ("website", String (toValidUTF8 i4))])).
  cbn [mbind outcome_bind].
  destruct (encode_elements Marshal_AssetInfo l) as [vs|e] eqn:Hl;
    [|discriminate].
  cbn [mbind outcome_bind].
  intros H; apply Done_inj in H; subst v.
  exists vs. split; [reflexivity|]. by apply encode_elements_Forall2.
Qed.

(** Whatever the provider: each of its assets whose [DefiInfo] is nil is
    written with the member [meta_info], as [{}]. *)
Lemma meta_info_written_for_every_provider (p : LendingProvider) (v : value)
    (l : list AssetInfo) (a : AssetInfo) :
  Assets p = slice_of l ->
  a ∈ l ->
  DefiInfo (MetaInfo a) = None ->
  Marshal_LendingProvider p = Done v ->
  exists vs va,
    member "assets" v = Some (Array vs) /\
    va ∈ vs /\
    member "meta_info" va = Some (Object []).
Proof.
  intros Hl Hin Hnil Hm.
  destruct (Marshal_LendingProvider_assets p v l Hl Hm) as (vs & Hvs & Hall).
  apply list_elem_of_lookup in Hin as [i Hi].
  destruct (Forall2_lookup_l _ _ _ _ _ Hall Hi) as (va & Hva & Hma).
  exists vs, va. split; [done|]. split; [by eapply list_elem_of_lookup_2|].
  destruct (Marshal_AssetInfo_members a va Hma) as (_ & _ & ms & Hms & Hempty).
  by rewrite Hms, (Hempty Hnil).
Qed.

(** The empty listing and the nil result are told apart in the document
    too: [[]] for the one, [null] for the other. *)
Lemma empty_listing_written_as_array :
  encode_slice Marshal_LendingProvider (slice_of []) = Done (Array []) /\
  encode_slice Marshal_LendingProvider nil_slice = Done Null.
Proof. by split. Qed.

(** C5: the provider [info_a] has one asset, whose [MetaInfo.DefiInfo] is
    nil.  In what the encoder writes for it, [defi_info] is left out but
    [meta_info] is there, as the empty object: [omitempty] does not apply
    to a field of struct type. *)
Theorem absent_defi_info_leaves_meta_info_object :
  Marshal_LendingProvider fixtures.info_a =
  Done (Object [
    ("id", String "a");
    ("info", Object [
       ("id", String "a");
       ("description", String "provider a");
       ("image", String "https://a.example/logo.png");
       ("website", String "https://a.example") ]);
    ("type", String "lending");
    ("assets", Array [
       Object [
         ("symbol", String "ETH");
         ("description", String "Ether");
         ("apy", Number (Real 0.5%float));
         ("yield_period", Number (Integer 0));
         ("yield_freq", Number (Integer 86400));
         ("total_supply", String "1000000000000000000000.000000000000000001");
         ("minimum_amount", String "0.01");
         ("meta_info", Object []) ] ]) ]).
Proof. vm_compute. reflexivity. Qed.

(** The same for every asset: whenever the encoder accepts an asset whose
    [DefiInfo] is nil, the member [meta_info] is written, as [{}]. *)
Lemma meta_info_written_when_DefiInfo_nil (a : AssetInfo) (v : value) :
  DefiInfo (MetaInfo a) = None ->
  Marshal_AssetInfo a = Done v ->
  member "meta_info" v = Some (Object []) /\
  member "defi_info" (Object []) = None.
Proof.
  intros Hnil Hm.
  destruct (Marshal_AssetInfo_members a v Hm) as (_ & _ & ms & Hms & Hempty).
  rewrite Hms, (Hempty Hnil). done.
Qed.

(** Outside decimal notation: a byte that is not UTF-8 does not survive.
    The total supply 0xFF is written as U+FFFD and read back as the three
    bytes of U+FFFD, with no error reported. *)
Lemma invalid_utf8_not_preserved :
  exists r,
    roundtrip_AssetInfo fixtures.garbled = Done r /\
    r.2 = None /\
    TotalSupply r.1 = utf8.RuneError /\
    TotalSupply r.1 <> TotalSupply fixtures.garbled.
Proof.
  eexists. split; [vm_compute; reflexivity|].
  split; [reflexivity|]. split; [reflexivity|]. discriminate.
Qed.

(** What comes back for the amounts of an asset on its own: the string
    coerced to valid UTF-8, which is the string itself exactly when it was
    valid. *)
Lemma amounts_roundtrip_AssetInfo (a : AssetInfo) (r : AssetInfo * saved) :
  int64_fields a = true ->
  roundtrip_AssetInfo a = Done r ->
  r.2 = None /\
  TotalSupply r.1 = toValidUTF8 (TotalSupply a) /\
  MinimumAmount r.1 = toValidUTF8 (MinimumAmount a) /\
  (TotalSupply r.1 = TotalSupply a <-> utf8.ValidString (TotalSupply a) = true) /\
  (MinimumAmount r.1 = MinimumAmount a
     <-> utf8.ValidString (MinimumAmount a) = true).
Proof.
  intros Hint Hr. rewrite (roundtrip_AssetInfo_reread a r Hint Hr).
  cbn [fst snd reread_AssetInfo TotalSupply MinimumAmount].
  rewrite !reread_toValidUTF8.
  repeat split; try apply toValidUTF8_fixed; done.
Qed.

(** The amounts of a lending contract that was written and read back:
    they are written as JSON strings, reading the document back reports no
    error, each amount comes back coerced to valid UTF-8, hence byte for
    byte when it was valid. *)
Lemma decimal_strings_roundtrip (c : LendingContract)
    (r : LendingContract * saved) :
  int64_fields (Asset c) = true ->
  roundtrip_LendingContract c = Done r ->
  (exists v va,
      Marshal_LendingContract c = Done v /\
      member "current_amount" v = Some (String (toValidUTF8 (CurrentAmount c))) /\
      member "asset" v = Some va /\
      member "total_supply" va
        = Some (String (toValidUTF8 (TotalSupply (Asset c)))) /\
      member "minimum_amount" va
        = Some (String (toValidUTF8 (MinimumAmount (Asset c))))) /\
  r.2 = None /\
  (CurrentAmount r.1 = toValidUTF8 (CurrentAmount c) /\
   TotalSupply (Asset r.1) = toValidUTF8 (TotalSupply (Asset c)) /\
   MinimumAmount (Asset r.1) = toValidUTF8 (MinimumAmount (Asset c))) /\
  (utf8.ValidString (CurrentAmount c) = true ->
   CurrentAmount r.1 = CurrentAmount c) /\
  (utf8.ValidString (TotalSupply (Asset c)) = true ->
   TotalSupply (Asset r.1) = TotalSupply (Asset c)) /\
  (utf8.ValidString (MinimumAmount (Asset c)) = true ->
   MinimumAmount (Asset r.1) = MinimumAmount (Asset c)).
Proof.
  intros Hint Hr. split.
  - unfold roundtrip_LendingContract in Hr.
    destruct (Marshal_LendingContract c) as [v|e] eqn:Hm; [|discriminate].
    destruct (Marshal_LendingContract_members c v Hm) as (Hca & va & Hva & Hma).
    destruct (Marshal_AssetInfo_members (Asset c) va Hma) as (Hts & Hmin & _).
    by exists v, va.
  - rewrite (roundtrip_LendingContract_reread c r Hint Hr).
    cbn [fst snd reread_LendingContract reread_AssetInfo Asset CurrentAmount
         TotalSupply MinimumAmount].
    split; [done|].
    split; [by rewrite !reread_toValidUTF8|].
    split; [|split]; apply reread_valid.
Qed.

(** Decimal notation is ASCII, hence valid UTF-8, hence preserved. *)
Lemma ascii_amount_preserved (s : string) :
  utf8.is_ascii s = true -> toValidUTF8 s = s.
Proof. intros H. by apply toValidUTF8_valid, is_ascii_ValidString. Qed.

End JsonFacts.

(** * Runs on the fixtures *)

Import fixtures.

(** A registry with the providers "a" (up) and "b" (down) lists exactly
    the info of "a", whatever the order of the iteration, the state of
    the upstream and the calls made before. *)
Example getProviders_a_up_b_down order (w : Upstream) (log : list (Call Rate)) :
  range_order registry_ab order ->
  (getProviders order {| apis := registry_ab; world := w; calls := log |}).1
  = (slice_of [info_a], nil_error).
Proof.
  unfold range_order. intros Hord.
  assert (map_to_list registry_ab
          = [("a", ok_backend info_a); ("b", failing_backend)]) as Hlist
    by (vm_compute; reflexivity).
  rewrite Hlist in Hord. symmetry in Hord.
  apply Permutation_length_2_inv in Hord as [-> | ->];
    rewrite getProviders_run; reflexivity.
Qed.

(** The theorems above, applied to the fixtures. *)

Lemma unknown_provider_no_backend_call_witness :
  apis (boot registry_ab) !! "missing" = None /\
  getAccounts "missing" account_0x1 (boot registry_ab)
  = ((nil_slice, error_value "Unknown provider missing"), boot registry_ab).
Proof.
  split; [reflexivity|].
  apply (unknown_provider_no_backend_call
           (boot registry_ab) "missing" eth_rates account_0x1).
  reflexivity.
Defined.

Lemma delegated_result_unchanged_witness :
  apis (boot registry_ab) !! "a" = Some (ok_backend info_a) /\
  (getRates "a" eth_rates (boot registry_ab)).1
  = (slice_of [("ETH", 0.5%float)], nil_error).
Proof.
  split; [reflexivity|].
  apply (delegated_result_unchanged
           (boot registry_ab) "a" (ok_backend info_a) eth_rates account_0x1).
  reflexivity.
Defined.

Lemma request_forwarded_verbatim_witness :
  apis (boot registry_ab) !! "b" = Some failing_backend /\
  calls (getAccounts "b" account_0x1 (boot registry_ab)).2
  = [CallGetAccountLendingContracts "b" account_0x1 (nil_slice, unavailable)].
Proof.
  split; [reflexivity|].
  apply (request_forwarded_verbatim
           (boot registry_ab) "b" failing_backend eth_rates account_0x1).
  reflexivity.
Defined.

Lemma registry_down_unavailable k (api : LendingAPI Upstream Rate) :
  registry_down !! k = Some api -> info_unavailable api.
Proof.
  unfold registry_down. intros H.
  apply lookup_insert_Some in H as [[_ <-] | [_ H]]; [by intros w|].
  apply lookup_singleton_Some in H as [_ <-]. by intros w.
Qed.


Lemma getProviders_collects_successes_witness :
  range_order registry_ab (map_to_list registry_ab) /\
  (getProviders (map_to_list registry_ab) (boot registry_ab)).1.1
  = slice_of [info_a].
Proof.
  split; [unfold range_order; reflexivity|].
  destruct (getProviders_collects_successes
              (boot registry_ab) (map_to_list registry_ab)) as [Hres _];
    [unfold range_order; reflexivity|].
  exact Hres.
Defined.


(** * Properties of the handlers *)

Section HandlerFacts.

Context {World LendingAssetRates : Type}.

Abbreviation HSt := (State World LendingAssetRates).
Abbreviation HAPI := (LendingAPI World LendingAssetRates).

Implicit Types (st : HSt) (api : HAPI) (ps : list gin.Param).

(** [Params.Get] fails exactly when no parameter has the name. *)
Lemma Params_Get_missing ps (name : string) :
  (gin.Params_Get ps name).2 = false <->
  Forall (fun e => gin.Key e <> name) ps.
Proof.
  induction ps as [|e rest IH]; cbn [gin.Params_Get].
  - split; [constructor|done].
  - destruct (String.eqb_spec (gin.Key e) name) as [Heq|Hne]; cbn [snd].
    + split; [done|]. intros H. by inversion H.
    + rewrite IH. split.
      * by constructor.
      * intros H. by inversion H.
Qed.

Lemma Params_Get_missing_value ps (name : string) :
  (gin.Params_Get ps name).2 = false -> gin.Params_Get ps name = ("", false).
Proof.
  induction ps as [|e rest IH]; cbn [gin.Params_Get]; [done|].
  by destruct (String.eqb (gin.Key e) name).
Qed.

(** The listing is always answered with 200 and a list that is not nil,
    the infos of the backends that answered: the error branch of
    [ServeProviders] is never taken, whatever the backends do. *)
Theorem ServeProviders_always_OK st (order : list (string * HAPI)) :
  (ServeProviders order st).1
  = [gin.JSON 200
       (gin.DocsResponse
          (Some (slice_of (omap succeeded (ask_all order (world st)).1))))] /\
  (ServeProviders order st).2 = (getProviders order st).2.
Proof.
  unfold ServeProviders, mbind, M_bind. by rewrite getProviders_run.
Qed.

(** Without a path parameter named "provider", [ServeRates] and
    [ServeAccount] answer 404 "Fatal: missing provider"; the body is not
    bound, no backend is called, the machine state is what it was. *)
Theorem missing_provider_parameter st ps
    (b1 : RatesRequest * error) (b2 : AccountRequest * error) :
  Forall (fun e => gin.Key e <> "provider"%string) ps ->
  ServeRates {| gin.Params := ps; gin.BindJSON := b1 |} st
    = ([gin.JSON 404 (gin.H_error "Fatal: missing provider")], st) /\
  ServeAccount {| gin.Params := ps; gin.BindJSON := b2 |} st
    = ([gin.JSON 404 (gin.H_error "Fatal: missing provider")], st).
Proof.
  intros Hmiss%Params_Get_missing%Params_Get_missing_value.
  unfold ServeRates, ServeAccount. cbn [gin.Params]. by rewrite Hmiss.
Qed.

(** When the body does not bind, the handlers render 500 with the message
    "Invalid request: " followed by the binding error, after [BindJSON]
    has aborted the context with 400; no backend is called. *)
Theorem body_does_not_bind st ps (id msg : string)
    (r1 : RatesRequest) (r2 : AccountRequest) :
  gin.Params_Get ps "provider" = (id, true) ->
  ServeRates {| gin.Params := ps; gin.BindJSON := (r1, error_value msg) |} st
    = ([gin.AbortWithError 400 (error_value msg);
        gin.JSON 500 (gin.H_error ("Invalid request: " ++ msg)%string)], st) /\
  ServeAccount {| gin.Params := ps; gin.BindJSON := (r2, error_value msg) |} st
    = ([gin.AbortWithError 400 (error_value msg);
        gin.JSON 500 (gin.H_error ("Invalid request: " ++ msg)%string)], st).
Proof.
  intros Hget. unfold ServeRates, ServeAccount. cbn [gin.Params gin.BindJSON].
  by rewrite Hget.
Qed.

(** A request for a provider that is not registered is answered 500 with
    "Unknown provider <id>", the id being the path parameter; no backend
    is called. *)
Theorem unknown_provider_rendered st ps (id : string)
    (r1 : RatesRequest) (r2 : AccountRequest) :
  gin.Params_Get ps "provider" = (id, true) ->
  apis st !! id = None ->
  ServeRates {| gin.Params := ps; gin.BindJSON := (r1, nil_error) |} st
    = ([gin.JSON 500 (gin.H_error ("Unknown provider " ++ id)%string)], st) /\
  ServeAccount {| gin.Params := ps; gin.BindJSON := (r2, nil_error) |} st
    = ([gin.JSON 500 (gin.H_error ("Unknown provider " ++ id)%string)], st).
Proof.
  intros Hget Hnone.
  unfold ServeRates, ServeAccount. cbn [gin.Params gin.BindJSON].
  rewrite Hget. cbn [negb].
  unfold getRates, getAccounts, mbind, M_bind, index_apis. by rewrite Hnone.
Qed.

(** What a handler does once the provider is found.  For a registered
    provider and a body that binds, [ServeRates] and [ServeAccount] make
    one backend call, with the bound request, and render its outcome:
    200 with the backend's data when its error is nil, 500 with the
    backend's own message otherwise (the data is then dropped). *)
Theorem backend_outcome_rendered st ps (id : string) api
    (r1 : RatesRequest) (r2 : AccountRequest) :
  gin.Params_Get ps "provider" = (id, true) ->
  apis st !! id = Some api ->
  let out1 := (GetCurrentLendingRates api (rr_Assets r1) (world st)).1 in
  let out2 := (GetAccountLendingContracts api r2 (world st)).1 in
  (ServeRates {| gin.Params := ps; gin.BindJSON := (r1, nil_error) |} st).1
    = [match out1.2 with
       | nil_error => gin.JSON 200 (gin.DocsResponse out1.1)
       | error_value msg => gin.JSON 500 (gin.H_error msg)
       end] /\
  calls (ServeRates {| gin.Params := ps; gin.BindJSON := (r1, nil_error) |} st).2
    = calls st ++ [CallGetCurrentLendingRates id (rr_Assets r1) out1] /\
  (ServeAccount {| gin.Params := ps; gin.BindJSON := (r2, nil_error) |} st).1
    = [match out2.2 with
       | nil_error => gin.JSON 200 (gin.DocsResponse (Some out2.1))
       | error_value msg => gin.JSON 500 (gin.H_error msg)
       end] /\
  calls (ServeAccount {| gin.Params := ps; gin.BindJSON := (r2, nil_error) |} st).2
    = calls st ++ [CallGetAccountLendingContracts id r2 out2].
Proof.
  intros Hget Hsome out1 out2. subst out1 out2.
  unfold ServeRates, ServeAccount. cbn [gin.Params gin.BindJSON].
  rewrite Hget. cbn [negb].
  unfold getRates, getAccounts, mbind, M_bind, index_apis. rewrite Hsome.
  unfold call_GetCurrentLendingRates, call_GetAccountLendingContracts, invoke.
  destruct (GetCurrentLendingRates api (rr_Assets r1) (world st))
    as [[d1 [|m1]] w1];
    destruct (GetAccountLendingContracts api r2 (world st))
      as [[d2 [|m2]] w2];
    done.
Qed.

(** The codes rendered by a handler, in order. *)
Lemma codes_of_ServeRates st (c : gin.Context RatesRequest) :
  exists code : Z,
    omap gin.rendered_code (ServeRates c st).1 = [code] /\
    (code = 200 \/ code = 404 \/ code = 500)%Z /\
    (code = 200%Z <->
     exists id req api,
       gin.Params_Get (gin.Params c) "provider" = (id, true) /\
       gin.BindJSON c = (req, nil_error) /\
       apis st !! id = Some api /\
       (GetCurrentLendingRates api (rr_Assets req) (world st)).1.2 = nil_error).
Proof.
  unfold ServeRates.
  destruct (gin.Params_Get (gin.Params c) "provider") as [id [|]]; cbn [negb].
  2:{ exists 404%Z. split; [done|]. split; [auto|].
      split; [done|]. by intros (? & ? & ? & [=] & _). }
  destruct (gin.BindJSON c) as [req [|msg]].
  2:{ exists 500%Z. split; [done|]. split; [auto|].
      split; [done|]. by intros (? & ? & ? & _ & [=] & _). }
  unfold getRates, mbind, M_bind, index_apis.
  destruct (apis st !! id) as [api|] eqn:Hapi.
  2:{ exists 500%Z. split; [done|]. split; [auto|].
      split; [done|]. intros (? & ? & ? & [= <-] & _ & Hs & _). congruence. }
  unfold call_GetCurrentLendingRates, invoke.
  destruct (GetCurrentLendingRates api (rr_Assets req) (world st))
    as [[d [|m]] w] eqn:Hout.
  - exists 200%Z. split; [done|]. split; [auto|]. split; [|done].
    intros _. exists id, req, api. by rewrite Hout.
  - exists 500%Z. split; [done|]. split; [auto|]. split; [done|].
    intros (id' & req' & api' & [= <-] & [= <-] & Hs & Herr).
    rewrite Hapi in Hs. injection Hs as <-. by rewrite Hout in Herr.
Qed.

Lemma codes_of_ServeAccount st (c : gin.Context AccountRequest) :
  exists code : Z,
    omap gin.rendered_code (ServeAccount c st).1 = [code] /\
    (code = 200 \/ code = 404 \/ code = 500)%Z /\
    (code = 200%Z <->
     exists id req api,
       gin.Params_Get (gin.Params c) "provider" = (id, true) /\
       gin.BindJSON c = (req, nil_error) /\
       apis st !! id = Some api /\
       (GetAccountLendingContracts api req (world st)).1.2 = nil_error).
Proof.
  unfold ServeAccount.
  destruct (gin.Params_Get (gin.Params c) "provider") as [id [|]]; cbn [negb].
  2:{ exists 404%Z. split; [done|]. split; [auto|].
      split; [done|]. by intros (? & ? & ? & [=] & _). }
  destruct (gin.BindJSON c) as [req [|msg]].
  2:{ exists 500%Z. split; [done|]. split; [auto|].
      split; [done|]. by intros (? & ? & ? & _ & [=] & _). }
  unfold getAccounts, mbind, M_bind, index_apis.
  destruct (apis st !! id) as [api|] eqn:Hapi.
  2:{ exists 500%Z. split; [done|]. split; [auto|].
      split; [done|]. intros (? & ? & ? & [= <-] & _ & Hs & _). congruence. }
  unfold call_GetAccountLendingContracts, invoke.
  destruct (GetAccountLendingContracts api req (world st))
    as [[d [|m]] w] eqn:Hout.
  - exists 200%Z. split; [done|]. split; [auto|]. split; [|done].
    intros _. exists id, req, api. by rewrite Hout.
  - exists 500%Z. split; [done|]. split; [auto|]. split; [done|].
    intros (id' & req' & api' & [= <-] & [= <-] & Hs & Herr).
    rewrite Hapi in Hs. injection Hs as <-. by rewrite Hout in Herr.
Qed.

(** Every request gets exactly one [c.JSON], with code 200, 404 or 500;
    [ServeRates] and [ServeAccount] answer 200 exactly when the parameter
    is there, the body binds, the provider is registered and its backend
    returns a nil error. *)
Theorem one_answer_per_request st
    (c1 : gin.Context RatesRequest) (c2 : gin.Context AccountRequest) :
  (exists code : Z,
    omap gin.rendered_code (ServeRates c1 st).1 = [code] /\
    (code = 200 \/ code = 404 \/ code = 500)%Z /\
    (code = 200%Z <->
     exists id req api,
       gin.Params_Get (gin.Params c1) "provider" = (id, true) /\
       gin.BindJSON c1 = (req, nil_error) /\
       apis st !! id = Some api /\
       (GetCurrentLendingRates api (rr_Assets req) (world st)).1.2 = nil_error)) /\
  (exists code : Z,
    omap gin.rendered_code (ServeAccount c2 st).1 = [code] /\
    (code = 200 \/ code = 404 \/ code = 500)%Z /\
    (code = 200%Z <->
     exists id req api,
       gin.Params_Get (gin.Params c2) "provider" = (id, true) /\
       gin.BindJSON c2 = (req, nil_error) /\
       apis st !! id = Some api /\
       (GetAccountLendingContracts api req (world st)).1.2 = nil_error)).
Proof.
  split; [apply codes_of_ServeRates | apply codes_of_ServeAccount].
Qed.

(** The handlers never change the registry, and [ServeRates] and
    [ServeAccount] call a backend at most once per request. *)
Theorem handlers_frame st (order : list (string * HAPI))
    (c1 : gin.Context RatesRequest) (c2 : gin.Context AccountRequest) :
  apis (ServeProviders order st).2 = apis st /\
  apis (ServeRates c1 st).2 = apis st /\
  apis (ServeAccount c2 st).2 = apis st /\
  (exists new, calls (ServeRates c1 st).2 = calls st ++ new /\ length new <= 1) /\
  (exists new, calls (ServeAccount c2 st).2 = calls st ++ new /\ length new <= 1).
Proof.
  split.
  { unfold ServeProviders, mbind, M_bind. by rewrite getProviders_run. }
  split; [|split; [|split]].
  - unfold ServeRates.
    destruct (gin.Params_Get (gin.Params c1) "provider") as [id [|]];
      cbn [negb]; [|done].
    destruct (gin.BindJSON c1) as [req [|msg]]; [|done].
    unfold getRates, mbind, M_bind, index_apis.
    destruct (apis st !! id) as [api|]; [|done].
    unfold call_GetCurrentLendingRates, invoke.
    by destruct (GetCurrentLendingRates api (rr_Assets req) (world st))
      as [[d [|m]] w].
  - unfold ServeAccount.
    destruct (gin.Params_Get (gin.Params c2) "provider") as [id [|]];
      cbn [negb]; [|done].
    destruct (gin.BindJSON c2) as [req [|msg]]; [|done].
    unfold getAccounts, mbind, M_bind, index_apis.
    destruct (apis st !! id) as [api|]; [|done].
    unfold call_GetAccountLendingContracts, invoke.
    by destruct (GetAccountLendingContracts api req (world st))
      as [[d [|m]] w].
  - unfold ServeRates.
    destruct (gin.Params_Get (gin.Params c1) "provider") as [id [|]];
      cbn [negb]; [|exists []; split; [by rewrite app_nil_r | simpl; lia]].
    destruct (gin.BindJSON c1) as [req [|msg]]; [|exists []; split; [by rewrite app_nil_r | simpl; lia]].
    unfold getRates, mbind, M_bind, index_apis.
    destruct (apis st !! id) as [api|]; [|exists []; split; [by rewrite app_nil_r | simpl; lia]].
    unfold call_GetCurrentLendingRates, invoke.
    destruct (GetCurrentLendingRates api (rr_Assets req) (world st))
      as [[d [|m]] w]; eexists; split; try reflexivity; simpl; lia.
  - unfold ServeAccount.
    destruct (gin.Params_Get (gin.Params c2) "provider") as [id [|]];
      cbn [negb]; [|exists []; split; [by rewrite app_nil_r | simpl; lia]].
    destruct (gin.BindJSON c2) as [req [|msg]]; [|exists []; split; [by rewrite app_nil_r | simpl; lia]].
    unfold getAccounts, mbind, M_bind, index_apis.
    destruct (apis st !! id) as [api|]; [|exists []; split; [by rewrite app_nil_r | simpl; lia]].
    unfold call_GetAccountLendingContracts, invoke.
    destruct (GetAccountLendingContracts api req (world st))
      as [[d [|m]] w]; eexists; split; try reflexivity; simpl; lia.
Qed.

End HandlerFacts.

(** * More on the listing *)

Section ListingFacts.

Context {World LendingAssetRates : Type}.

Abbreviation LSt := (State World LendingAssetRates).
Abbreviation LAPI := (LendingAPI World LendingAssetRates).

Implicit Types (st : LSt) (api : LAPI) (order : list (string * LAPI)).

Lemma omap_length_le {A B} (f : A -> option B) (l : list A) :
  length (omap f l) <= length l.
Proof.
  induction l as [|x rest IH]; [done|].
  cbn [omap list_omap]. destruct (f x); cbn [length]; lia.
Qed.

Lemma ask_all_length order (w : World) :
  length (ask_all (LendingAssetRates := LendingAssetRates) order w).1
  = length order.
Proof.
  rewrite <- (length_fmap callee), ask_all_callee. apply length_fmap.
Qed.


(** When the info of no backend depends on the world, two runs of the
    listing over the same registry return the same infos, up to the order
    the runtime iterated in. *)
Theorem listing_up_to_order st1 st2 (order1 order2 : list (string * LAPI)) :
  apis st1 = apis st2 ->
  range_order (apis st1) order1 ->
  range_order (apis st2) order2 ->
  (forall k api, apis st1 !! k = Some api ->
     forall w w', (GetProviderInfo api w).1 = (GetProviderInfo api w').1) ->
  elements (getProviders order1 st1).1.1
  ≡ₚ elements (getProviders order2 st2).1.1.
Proof.
  intros Hsame Hord1 Hord2 Hpure.
  assert (forall order (w w0 : World),
    Forall (fun e => forall w w', (GetProviderInfo e.2 w).1 = (GetProviderInfo e.2 w').1) order ->
    omap succeeded (ask_all order w).1
    = omap (fun e : string * LAPI =>
              succeeded (LendingAssetRates := LendingAssetRates)
                (CallGetProviderInfo e.1 (GetProviderInfo e.2 w0).1)) order)
    as Hfix.
  { intros order w w0 Hall. revert w.
    induction Hall as [|[k api] rest Hk _ IH]; intros w; [done|].
    cbn [ask_all]. specialize (Hk w w0). cbn [snd] in Hk.
    destruct (GetProviderInfo api w) as [out w1].
    specialize (IH w1). destruct (ask_all rest w1) as [cs w2].
    cbn [fst snd] in *. subst out. cbn [omap list_omap]. by rewrite IH. }
  rewrite !getProviders_run. cbn [fst snd elements].
  unfold range_order in Hord1, Hord2.
  rewrite (Hfix order1 (world st1) (world st1)), (Hfix order2 (world st2) (world st1)).
  - rewrite Hord1, Hord2, Hsame. done.
  - apply Forall_forall. intros [k api] Hin. cbn [snd].
    apply (Hpure k). rewrite Hsame. rewrite Hord2 in Hin.
    by apply elem_of_map_to_list in Hin.
  - apply Forall_forall. intros [k api] Hin. cbn [snd].
    apply (Hpure k). rewrite Hord1 in Hin.
    by apply elem_of_map_to_list in Hin.
Qed.

End ListingFacts.

(** * More on the serialized representation *)

Section MoreJsonFacts.

Import json.

(** *** Identity on plain values *)

Lemma reread_DefiTokenInfo_plain (t : DefiTokenInfo) :
  plain_DefiTokenInfo t = true -> reread_DefiTokenInfo t = t.
Proof.
  destruct t as [s c a]. unfold plain_DefiTokenInfo, reread_DefiTokenInfo.
  cbn [dti_Symbol dti_Chain dti_ContractAddress].
  intros [[Hs Hc]%andb_prop Ha]%andb_prop.
  by rewrite !reread_valid.
Qed.

Lemma reread_AssetInfo_plain (a : AssetInfo) :
  plain_AssetInfo a = true -> reread_AssetInfo a = a.
Proof.
  destruct a as [sym desc apy yp yf ts ma [d]].
  unfold plain_AssetInfo, plain_AssetMetaInfo, reread_AssetInfo.
  cbn [Symbol Description TotalSupply MinimumAmount MetaInfo DefiInfo APY
       YieldPeriod YieldFrequency].
  intros [[[[[[Hs Hd]%andb_prop Ht]%andb_prop Hm]%andb_prop Hmeta]%andb_prop _]%andb_prop _]%andb_prop.
  rewrite !reread_valid by done.
  destruct d as [[at_ tt]|]; [|done].
  cbn [AssetToken TechnicalToken] in Hmeta.
  apply andb_prop in Hmeta as [H1 H2].
  cbn [fmap option_fmap option_map]. unfold reread_DefiAssetInfo.
  cbn [AssetToken TechnicalToken].
  by rewrite !reread_DefiTokenInfo_plain.
Qed.

Lemma plain_AssetInfo_accepted (a : AssetInfo) :
  plain_AssetInfo a = true ->
  int64_fields a = true /\
  PrimFloat.is_nan (APY a) || PrimFloat.is_infinity (APY a) = false.
Proof.
  unfold plain_AssetInfo. intros [[_ Hi]%andb_prop Hf]%andb_prop.
  split; [done|]. unfold PrimFloat.is_finite in Hf.
  by apply negb_true_iff in Hf.
Qed.

(** The encoder accepts an asset exactly when its APY is a number. *)
Lemma Marshal_AssetInfo_outcome (a : AssetInfo) :
  if PrimFloat.is_nan (APY a) || PrimFloat.is_infinity (APY a)
  then Marshal_AssetInfo a
       = Failed (error_value ("json: unsupported value: "
                              ++ FormatFloat_special (APY a)))
  else exists v, Marshal_AssetInfo a = Done v.
Proof.
  destruct a as [sym desc apy yp yf ts ma [[[[s1 c1 [|x1 a1]] [s2 c2 [|x2 a2]]]|]]];
    cbn [APY];
    match goal with
    | |- context [Marshal_AssetInfo ?a] =>
        let m := eval lazy -[toValidUTF8 PrimFloat.is_nan PrimFloat.is_infinity
                             orb FormatFloat_special String.append]
                 in (Marshal_AssetInfo a) in
        change (Marshal_AssetInfo a) with m
    end;
    destruct (PrimFloat.is_nan apy || PrimFloat.is_infinity apy);
    cbv beta iota; first [reflexivity | by eexists].
Qed.

Theorem AssetInfo_roundtrip_identity (a : AssetInfo) :
  plain_AssetInfo a = true ->
  roundtrip_AssetInfo a = Done (a, None).
Proof.
  intros Hplain.
  destruct (plain_AssetInfo_accepted a Hplain) as [Hint Hfin].
  pose proof (Marshal_AssetInfo_outcome a) as Hm. rewrite Hfin in Hm.
  destruct Hm as [v Hv].
  assert (roundtrip_AssetInfo a = Done (Unmarshal_AssetInfo v)) as Hr.
  { unfold roundtrip_AssetInfo. by rewrite Hv. }
  rewrite Hr. f_equal.
  rewrite (roundtrip_AssetInfo_reread a _ Hint Hr).
  by rewrite reread_AssetInfo_plain.
Qed.

(** *** Slices *)

Lemma encode_elements_Done {T} (enc : T -> outcome value) (l : list T) :
  Forall (fun x => exists v, enc x = Done v) l ->
  exists vs, encode_elements enc l = Done vs.
Proof.
  induction 1 as [|x rest [v Hv] _ [vs Hvs]]; [by eexists|].
  exists (v :: vs). cbn [encode_elements]. unfold mbind, outcome_bind.
  by rewrite Hv, Hvs.
Qed.

Lemma decode_elements_encoded {T} (dec : decoder T) (zero : T) (f : T -> T)
    (l : list T) (vs : list value) :
  Forall2 (fun x v => dec v zero = (f x, None)) l vs ->
  decode_elements dec zero vs [] = (map f l, None).
Proof.
  induction 1 as [|x v l' vs' Hx _ IH]; [done|].
  cbn [decode_elements tail map]. by rewrite Hx, IH.
Qed.

Lemma reread_slice_plain {T} (f : T -> T) (ok : T -> bool) (s : slice T) :
  (forall x, ok x = true -> f x = x) ->
  forallb ok (elements s) = true ->
  reread_slice f s = s.
Proof.
  intros Hf. destruct s as [|l]; [done|]. cbn [elements reread_slice].
  intros Hall. f_equal. induction l as [|x rest IH]; [done|].
  cbn [forallb] in Hall. apply andb_prop in Hall as [Hx Hrest].
  cbn [map]. by rewrite (Hf x Hx), (IH Hrest).
Qed.

(** The decoder run member by member, the decoders of the elements and
    of the nested structs left to the lemmas about them. *)
Ltac run_members_by ev rew :=
  cbn [fold_left];
  repeat match goal with
  | |- context [decode_member ?fs (?x, ?e) (?k, ?v)] =>
      let t := ev (decode_member fs (x, e) (k, v)) in
      change (decode_member fs (x, e) (k, v)) with t;
      rew; cbv beta iota
  end.

Ltac keep_string_decoder t :=
  eval lazy -[toValidUTF8 reread decode_elements decode_string map] in t.

Ltac keep_struct_decoders t :=
  eval lazy -[toValidUTF8 reread decode_elements decode_AssetInfo
              decode_LendingContract zero_AssetInfo zero_LendingContract map]
  in t.

Lemma encode_strings (l : list string) :
  encode_elements encode_string l
  = Done (map (fun s => String (toValidUTF8 s)) l).
Proof.
  induction l as [|s rest IH]; [done|].
  cbn [encode_elements map]. unfold mbind, outcome_bind.
  by rewrite IH.
Qed.

Lemma decode_strings (l : list string) :
  decode_elements decode_string "" (map (fun s => String (toValidUTF8 s)) l) []
  = (map reread l, None).
Proof.
  apply decode_elements_encoded.
  induction l as [|s rest IH]; constructor; done.
Qed.

(** An [AccountRequest] that is written comes back with its strings
    re-read and its nil slices nil. *)
Lemma roundtrip_AccountRequest_reread (r : AccountRequest) :
  exists v, Marshal_AccountRequest r = Done v /\
            Unmarshal_AccountRequest v = (reread_AccountRequest r, None).
Proof.
  destruct r as [[|l1] [|l2]];
    unfold Marshal_AccountRequest, encode_struct;
    cbn [encode_fields omitEmpty empty encoded name andb mbind outcome_bind
         Addresses ar_Assets encode_slice];
    rewrite ?encode_strings; cbn [mbind outcome_bind];
    eexists; (split; [reflexivity|]);
    unfold Unmarshal_AccountRequest, decode_AccountRequest, decode_struct;
    run_members_by keep_string_decoder ltac:(rewrite ?decode_strings); reflexivity.
Qed.

Lemma decode_assets (l : list AssetInfo) (vs : list value) :
  forallb int64_fields l = true ->
  Forall2 (fun a va => Marshal_AssetInfo a = Done va) l vs ->
  decode_elements decode_AssetInfo zero_AssetInfo vs []
  = (map reread_AssetInfo l, None).
Proof.
  intros Hint Hall. apply decode_elements_encoded.
  induction Hall as [|a va l' vs' Ha _ IH]; [constructor|].
  cbn [forallb] in Hint. apply andb_prop in Hint as [Hi Hrest].
  constructor; [|by apply IH].
  apply (roundtrip_AssetInfo_reread a _ Hi).
  unfold roundtrip_AssetInfo. by rewrite Ha.
Qed.

Lemma decode_contracts (l : list LendingContract) (vs : list value) :
  forallb (fun c => int64_fields (Asset c)) l = true ->
  Forall2 (fun c vc => Marshal_LendingContract c = Done vc) l vs ->
  decode_elements decode_LendingContract zero_LendingContract vs []
  = (map reread_LendingContract l, None).
Proof.
  intros Hint Hall. apply decode_elements_encoded.
  induction Hall as [|c vc l' vs' Hc _ IH]; [constructor|].
  cbn [forallb] in Hint. apply andb_prop in Hint as [Hi Hrest].
  constructor; [|by apply IH].
  apply (roundtrip_LendingContract_reread c _ Hi).
  unfold roundtrip_LendingContract. by rewrite Hc.
Qed.

(** A [LendingProvider] that was written comes back with no error, its
    strings re-read, its assets in order, a nil list of assets nil. *)
Lemma roundtrip_LendingProvider_reread (p : LendingProvider) (v : value) :
  forallb int64_fields (elements (Assets p)) = true ->
  Marshal_LendingProvider p = Done v ->
  Unmarshal_LendingProvider v = (reread_LendingProvider p, None).
Proof.
  destruct p as [id [i1 i2 i3 i4] ty [|l]]; cbn [Assets elements]; intros Hint;
    unfold Marshal_LendingProvider, encode_struct;
    cbn [encode_fields omitEmpty empty encoded name andb mbind outcome_bind
         encode_string ID Info Type_ Assets encode_slice];
    change (Marshal_LendingProviderInfo
              {| lpi_ID := i1; lpi_Description := i2;
                 lpi_Image := i3; lpi_Website := i4 |})
      with (Done (Object [("id", String (toValidUTF8 i1));
                          ("description", String (toValidUTF8 i2));
                          ("image", String (toValidUTF8 i3));
                          ("website", String (toValidUTF8 i4))]));
    cbn [mbind outcome_bind].
  - intros H; apply Done_inj in H; subst v.
    unfold Unmarshal_LendingProvider, decode_LendingProvider, decode_struct.
    run_members_by keep_struct_decoders idtac. reflexivity.
  - destruct (encode_elements Marshal_AssetInfo l) as [vs|e] eqn:Hl;
      [|discriminate].
    cbn [mbind outcome_bind].
    intros H; apply Done_inj in H; subst v.
    pose proof (decode_assets l vs Hint (encode_elements_Forall2 _ _ _ Hl)) as Hd.
    unfold Unmarshal_LendingProvider, decode_LendingProvider, decode_struct.
    run_members_by keep_struct_decoders ltac:(rewrite ?Hd). reflexivity.
Qed.

Lemma roundtrip_AccountLendingContracts_reread (a : AccountLendingContracts)
    (v : value) :
  forallb (fun c => int64_fields (Asset c)) (elements (Contracts a)) = true ->
  Marshal_AccountLendingContracts a = Done v ->
  Unmarshal_AccountLendingContracts v
  = (reread_AccountLendingContracts a, None).
Proof.
  destruct a as [addr [|l]]; cbn [Contracts elements]; intros Hint;
    unfold Marshal_AccountLendingContracts, encode_struct;
    cbn [encode_fields omitEmpty empty encoded name andb mbind outcome_bind
         encode_string Address Contracts encode_slice].
  - intros H; apply Done_inj in H; subst v.
    unfold Unmarshal_AccountLendingContracts, decode_AccountLendingContracts,
      decode_struct.
    run_members_by keep_struct_decoders idtac. reflexivity.
  - destruct (encode_elements Marshal_LendingContract l) as [vs|e] eqn:Hl;
      [|discriminate].
    cbn [mbind outcome_bind].
    intros H; apply Done_inj in H; subst v.
    pose proof (decode_contracts l vs Hint (encode_elements_Forall2 _ _ _ Hl))
      as Hd.
    unfold Unmarshal_AccountLendingContracts, decode_AccountLendingContracts,
      decode_struct.
    run_members_by keep_struct_decoders ltac:(rewrite ?Hd). reflexivity.
Qed.

Lemma forallb_Forall {A} (f : A -> bool) (l : list A) :
  forallb f l = true <-> Forall (fun x => f x = true) l.
Proof.
  induction l as [|x rest IH]; cbn [forallb]; [by split|].
  rewrite andb_true_iff, IH. split.
  - intros [? ?]. by constructor.
  - intros H. by inversion H.
Qed.

(** *** What the encoder accepts *)

Lemma Marshal_LendingContract_outcome (c : LendingContract) :
  (exists v, Marshal_LendingContract c = Done v) <->
  (exists va, Marshal_AssetInfo (Asset c) = Done va).
Proof.
  destruct c as [a amount].
  unfold Marshal_LendingContract, encode_struct.
  cbn [encode_fields omitEmpty empty encoded name isEmptyValue_struct andb
       mbind outcome_bind Asset CurrentAmount encode_string].
  destruct (Marshal_AssetInfo a) as [va|e]; cbn [mbind outcome_bind].
  - split; intros _; by eexists.
  - split; intros [? ?]; discriminate.
Qed.

Lemma Marshal_AssetInfo_accepts (a : AssetInfo) :
  (exists v, Marshal_AssetInfo a = Done v) <->
  PrimFloat.is_finite (APY a) = true.
Proof.
  pose proof (Marshal_AssetInfo_outcome a) as H.
  unfold PrimFloat.is_finite. rewrite negb_true_iff.
  destruct (PrimFloat.is_nan (APY a) || PrimFloat.is_infinity (APY a)).
  - rewrite H. split; [intros [? ?]; discriminate|discriminate].
  - by split.
Qed.

Lemma encode_elements_accepts {T} (enc : T -> outcome value) (l : list T) :
  (exists vs, encode_elements enc l = Done vs) <->
  Forall (fun x => exists v, enc x = Done v) l.
Proof.
  split; [|apply encode_elements_Done].
  intros [vs Hvs]. apply encode_elements_Forall2 in Hvs.
  induction Hvs; constructor; eauto.
Qed.

(** One asset whose APY is NaN or infinite and the provider cannot be
    written at all; otherwise it can. *)
Theorem Marshal_LendingProvider_accepts (p : LendingProvider) :
  (exists v, Marshal_LendingProvider p = Done v) <->
  forallb (fun a => PrimFloat.is_finite (APY a)) (elements (Assets p)) = true.
Proof.
  rewrite forallb_Forall.
  destruct p as [id [i1 i2 i3 i4] ty [|l]]; cbn [Assets elements];
    unfold Marshal_LendingProvider, encode_struct;
    cbn [encode_fields omitEmpty empty encoded name andb mbind outcome_bind
         encode_string ID Info Type_ Assets encode_slice];
    change (Marshal_LendingProviderInfo
              {| lpi_ID := i1; lpi_Description := i2;
                 lpi_Image := i3; lpi_Website := i4 |})
      with (Done (Object [("id", String (toValidUTF8 i1));
                          ("description", String (toValidUTF8 i2));
                          ("image", String (toValidUTF8 i3));
                          ("website", String (toValidUTF8 i4))]));
    cbn [mbind outcome_bind].
  - split; [constructor|by eexists].
  - assert (Forall (fun a => PrimFloat.is_finite (APY a) = true) l
            <-> Forall (fun a => exists v, Marshal_AssetInfo a = Done v) l)
      as ->.
    { split; intros H; (eapply Forall_impl; [exact H|]); intros a;
        apply Marshal_AssetInfo_accepts. }
    rewrite <- encode_elements_accepts.
    destruct (encode_elements Marshal_AssetInfo l) as [vs|e];
      cbn [mbind outcome_bind].
    + split; intros _; by eexists.
    + split; intros [? ?]; discriminate.
Qed.

(** *** Round trips that change nothing *)

Lemma forallb_plain_int64 (l : list AssetInfo) :
  forallb plain_AssetInfo l = true -> forallb int64_fields l = true.
Proof.
  rewrite !forallb_Forall. intros H. eapply Forall_impl; [exact H|].
  intros a Ha. by destruct (plain_AssetInfo_accepted a Ha).
Qed.

Lemma reread_LendingContract_plain (c : LendingContract) :
  plain_LendingContract c = true -> reread_LendingContract c = c.
Proof.
  destruct c as [a amount]. unfold plain_LendingContract, reread_LendingContract.
  cbn [Asset CurrentAmount]. intros [Ha Hc]%andb_prop.
  by rewrite reread_AssetInfo_plain, reread_valid.
Qed.

Theorem LendingProvider_roundtrip_identity (p : LendingProvider) :
  plain_LendingProvider p = true ->
  exists v, Marshal_LendingProvider p = Done v /\
            Unmarshal_LendingProvider v = (p, None).
Proof.
  intros Hplain.
  assert (forallb plain_AssetInfo (elements (Assets p)) = true) as Hassets.
  { unfold plain_LendingProvider in Hplain. by apply andb_prop in Hplain as [_ ?]. }
  destruct (proj2 (Marshal_LendingProvider_accepts p)) as [v Hv].
  { rewrite forallb_Forall in Hassets |- *.
    eapply Forall_impl; [exact Hassets|]. intros a Ha.
    unfold plain_AssetInfo in Ha. by apply andb_prop in Ha as [_ ?]. }
  exists v. split; [done|].
  rewrite (roundtrip_LendingProvider_reread p v (forallb_plain_int64 _ Hassets) Hv).
  f_equal. destruct p as [id [i1 i2 i3 i4] ty assets].
  unfold plain_LendingProvider in Hplain.
  cbn [ID Info Type_ Assets lpi_ID lpi_Description lpi_Image lpi_Website]
    in Hplain.
  apply andb_prop in Hplain as [[[[[[H1 H2]%andb_prop H3]%andb_prop
    H4]%andb_prop H5]%andb_prop H6]%andb_prop H7].
  unfold reread_LendingProvider.
  cbn [ID Info Type_ Assets lpi_ID lpi_Description lpi_Image lpi_Website].
  rewrite !reread_valid by done.
  by rewrite (reread_slice_plain _ plain_AssetInfo _ reread_AssetInfo_plain H7).
Qed.

Theorem AccountLendingContracts_roundtrip_identity (a : AccountLendingContracts) :
  plain_AccountLendingContracts a = true ->
  exists v, Marshal_AccountLendingContracts a = Done v /\
            Unmarshal_AccountLendingContracts v = (a, None).
Proof.
  intros Hplain. unfold plain_AccountLendingContracts in Hplain.
  apply andb_prop in Hplain as [Haddr Hcs].
  assert (exists v, Marshal_AccountLendingContracts a = Done v) as [v Hv].
  { destruct a as [addr [|l]];
      unfold Marshal_AccountLendingContracts, encode_struct;
      cbn [encode_fields omitEmpty empty encoded name andb mbind outcome_bind
           encode_string Address Contracts encode_slice]; [by eexists|].
    destruct (encode_elements_Done Marshal_LendingContract l) as [vs Hvs].
    { cbn [Contracts elements] in Hcs. rewrite forallb_Forall in Hcs.
      eapply Forall_impl; [exact Hcs|]. intros c Hc.
      apply Marshal_LendingContract_outcome, Marshal_AssetInfo_accepts.
      unfold plain_LendingContract in Hc.
      apply andb_prop in Hc as [Hc1 _]. unfold plain_AssetInfo in Hc1.
      by apply andb_prop in Hc1 as [_ ?]. }
    rewrite Hvs. cbn [mbind outcome_bind]. by eexists. }
  exists v. split; [done|].
  rewrite (roundtrip_AccountLendingContracts_reread a v); [|
    |done].
  2:{ rewrite forallb_Forall in Hcs |- *.
      eapply Forall_impl; [exact Hcs|]. intros c Hc.
      unfold plain_LendingContract in Hc.
      apply andb_prop in Hc as [Hc1 _].
      by destruct (plain_AssetInfo_accepted _ Hc1). }
  f_equal. destruct a as [addr cs]. unfold reread_AccountLendingContracts.
  cbn [Address Contracts] in *. rewrite reread_valid by done.
  by rewrite (reread_slice_plain _ plain_LendingContract _
                reread_LendingContract_plain Hcs).
Qed.

Theorem AccountRequest_roundtrip_identity (r : AccountRequest) :
  plain_AccountRequest r = true ->
  exists v, Marshal_AccountRequest r = Done v /\
            Unmarshal_AccountRequest v = (r, None).
Proof.
  intros [H1 H2]%andb_prop.
  destruct (roundtrip_AccountRequest_reread r) as (v & Hv & Hu).
  exists v. split; [done|]. rewrite Hu. f_equal.
  destruct r as [addrs assets]. unfold reread_AccountRequest.
  cbn [Addresses ar_Assets] in *.
  by rewrite !(reread_slice_plain _ utf8.ValidString _ reread_valid).
Qed.

(** *** The DeFi token details *)

(** A token is always written with its symbol and chain, and with its
    contract address exactly when the address is not empty; the two tokens
    of a [DefiAssetInfo] are always written, [omitempty] or not. *)
Theorem DefiAssetInfo_members (d : DefiAssetInfo) :
  let written (t : DefiTokenInfo) : value :=
    Object ([("symbol", String (toValidUTF8 (dti_Symbol t)));
             ("chain", String (toValidUTF8 (dti_Chain t)))]
            ++ (if isEmptyValue_string (dti_ContractAddress t) then []
                else [("contract_address",
                       String (toValidUTF8 (dti_ContractAddress t)))])) in
  Marshal_DefiTokenInfo (AssetToken d) = Done (written (AssetToken d)) /\
  Marshal_DefiTokenInfo (TechnicalToken d) = Done (written (TechnicalToken d)) /\
  Marshal_DefiAssetInfo d
  = Done (Object [("asset_token", written (AssetToken d));
                  ("technical_token", written (TechnicalToken d))]) /\
  (member "contract_address" (written (AssetToken d)) = None
   <-> dti_ContractAddress (AssetToken d) = "").
Proof.
  destruct d as [[s1 c1 [|x1 a1]] [s2 c2 [|x2 a2]]]; cbv zeta;
    cbn [AssetToken TechnicalToken dti_Symbol dti_Chain dti_ContractAddress];
    repeat split; try reflexivity; try discriminate.
Qed.

(** *** Members that are not there *)

Lemma eqb_equalFold (a b : string) :
  String.eqb a b = true -> equalFold a b = true.
Proof.
  intros ->%String.eqb_eq. unfold equalFold. apply String.eqb_refl.
Qed.

(** A request body whose keys are ASCII and that has no member named
    "assets", in any case of the letters, binds with a nil [Assets]: the
    field keeps its zero value, whatever else the object holds.  (The keys
    are taken in ASCII because that is where the folding of [find_field] is
    the folding of Go.) *)
Theorem AccountRequest_absent_assets (ms : list (string * value)) :
  Forall (fun m => utf8.is_ascii m.1 = true) ms ->
  Forall (fun m => equalFold "assets" m.1 = false) ms ->
  ar_Assets (Unmarshal_AccountRequest (Object ms)).1 = nil_slice.
Proof.
  intros _ Hall.
  unfold Unmarshal_AccountRequest, decode_AccountRequest, decode_struct.
  assert (forall acc : AccountRequest * saved,
            ar_Assets acc.1 = nil_slice ->
            ar_Assets
              (fold_left
                 (decode_member
                    [("addresses",
                      into Addresses set_Addresses
                        (decode_slice "[]string" decode_string ""));
                     ("assets",
                      into ar_Assets set_ar_Assets
                        (decode_slice "[]string" decode_string ""))])
                 ms acc).1 = nil_slice) as Hinv; [|by apply Hinv].
  induction Hall as [|[k v] rest Hk _ IH]; intros acc Hacc; [done|].
  cbn [fold_left]. apply IH. cbn [fst] in Hk.
  assert (String.eqb "assets" k = false) as Hne.
  { destruct (String.eqb "assets" k) eqn:E; [|done].
    apply eqb_equalFold in E. congruence. }
  unfold decode_member, find_field. cbn [fst snd lookup_by].
  rewrite Hne, Hk.
  destruct (String.eqb "addresses" k); [|destruct (equalFold "addresses" k)];
    try done;
    unfold into;
    destruct (decode_slice "[]string" decode_string "" v (Addresses acc.1));
    done.
Qed.

End MoreJsonFacts.

(** * More runs on the fixtures *)

Import fixtures.

Lemma missing_provider_parameter_witness :
  Forall (fun e => gin.Key e <> "provider"%string)
    [{| gin.Key := "id"; gin.Value := "a" |}] /\
  ServeRates {| gin.Params := [{| gin.Key := "id"; gin.Value := "a" |}];
                gin.BindJSON := (eth_rates, nil_error) |} (boot registry_ab)
  = ([gin.JSON 404 (gin.H_error "Fatal: missing provider")], boot registry_ab).
Proof.
  split; [repeat constructor; discriminate|].
  apply (missing_provider_parameter (boot registry_ab)
           [{| gin.Key := "id"; gin.Value := "a" |}]
           (eth_rates, nil_error) (account_0x1, nil_error)).
  repeat constructor; discriminate.
Defined.

Lemma body_does_not_bind_witness :
  gin.Params_Get (for_provider "a") "provider" = ("a"%string, true) /\
  ServeAccount {| gin.Params := for_provider "a";
                  gin.BindJSON := (account_0x1, error_value "EOF") |}
    (boot registry_ab)
  = ([gin.AbortWithError 400 (error_value "EOF");
      gin.JSON 500 (gin.H_error "Invalid request: EOF")], boot registry_ab).
Proof.
  split; [reflexivity|].
  apply (body_does_not_bind (boot registry_ab) (for_provider "a") "a" "EOF"
           eth_rates account_0x1).
  reflexivity.
Defined.

Lemma unknown_provider_rendered_witness :
  gin.Params_Get (for_provider "missing") "provider" = ("missing"%string, true) /\
  apis (boot registry_ab) !! "missing" = None /\
  ServeRates {| gin.Params := for_provider "missing";
                gin.BindJSON := (eth_rates, nil_error) |} (boot registry_ab)
  = ([gin.JSON 500 (gin.H_error "Unknown provider missing")], boot registry_ab).
Proof.
  split; [reflexivity|]. split; [reflexivity|].
  apply (unknown_provider_rendered (boot registry_ab) (for_provider "missing")
           "missing" eth_rates account_0x1); reflexivity.
Defined.

Lemma backend_outcome_rendered_witness :
  gin.Params_Get (for_provider "a") "provider" = ("a"%string, true) /\
  apis (boot registry_ab) !! "a" = Some (ok_backend info_a) /\
  (ServeRates {| gin.Params := for_provider "a";
                 gin.BindJSON := (eth_rates, nil_error) |} (boot registry_ab)).1
  = [gin.JSON 200 (gin.DocsResponse (slice_of [("ETH"%string, 0.5%float)]))].
Proof.
  split; [reflexivity|]. split; [reflexivity|].
  destruct (backend_outcome_rendered (boot registry_ab) (for_provider "a") "a"
              (ok_backend info_a) eth_rates account_0x1) as [Hrates _];
    [reflexivity|reflexivity|].
  exact Hrates.
Defined.


Lemma registry_ab_info_pure k (api : LendingAPI Upstream Rate) :
  registry_ab !! k = Some api ->
  forall w w', (GetProviderInfo api w).1 = (GetProviderInfo api w').1.
Proof.
  unfold registry_ab. intros H.
  apply lookup_insert_Some in H as [[_ <-] | [_ H]]; [done|].
  apply lookup_singleton_Some in H as [_ <-]. done.
Qed.

Lemma listing_up_to_order_witness :
  range_order registry_ab (map_to_list registry_ab) /\
  range_order registry_ab (reverse (map_to_list registry_ab)) /\
  elements (getProviders (map_to_list registry_ab) (boot registry_ab)).1.1
  ≡ₚ elements
       (getProviders (reverse (map_to_list registry_ab)) (boot registry_ab)).1.1.
Proof.
  split; [unfold range_order; reflexivity|].
  split; [unfold range_order; apply reverse_Permutation|].
  apply (listing_up_to_order (boot registry_ab) (boot registry_ab)).
  - reflexivity.
  - unfold range_order; reflexivity.
  - unfold range_order; apply reverse_Permutation.
  - exact registry_ab_info_pure.
Defined.

Lemma AssetInfo_roundtrip_identity_witness :
  json.plain_AssetInfo (Asset dai_contract) = true /\
  json.roundtrip_AssetInfo (Asset dai_contract)
  = json.Done (Asset dai_contract, None).
Proof.
  split; [vm_compute; reflexivity|].
  apply (AssetInfo_roundtrip_identity (Asset dai_contract)).
  vm_compute; reflexivity.
Defined.

Lemma LendingProvider_roundtrip_identity_witness :
  json.plain_LendingProvider info_a = true /\
  exists v, json.Marshal_LendingProvider info_a = json.Done v /\
            json.Unmarshal_LendingProvider v = (info_a, None).
Proof.
  split; [vm_compute; reflexivity|].
  apply (LendingProvider_roundtrip_identity info_a).
  vm_compute; reflexivity.
Defined.

Lemma AccountLendingContracts_roundtrip_identity_witness :
  json.plain_AccountLendingContracts positions_0x1 = true /\
  exists v, json.Marshal_AccountLendingContracts positions_0x1 = json.Done v /\
            json.Unmarshal_AccountLendingContracts v = (positions_0x1, None).
Proof.
  split; [vm_compute; reflexivity|].
  apply (AccountLendingContracts_roundtrip_identity positions_0x1).
  vm_compute; reflexivity.
Defined.

Lemma AccountRequest_roundtrip_identity_witness :
  json.plain_AccountRequest account_0x1 = true /\
  exists v, json.Marshal_AccountRequest account_0x1 = json.Done v /\
            json.Unmarshal_AccountRequest v = (account_0x1, None).
Proof.
  split; [vm_compute; reflexivity|].
  apply (AccountRequest_roundtrip_identity account_0x1).
  vm_compute; reflexivity.
Defined.

Lemma AccountRequest_absent_assets_witness :
  Forall (fun m => utf8.is_ascii m.1 = true)
    [("addresses"%string, json.Array [json.String "0x1"])] /\
  Forall (fun m => json.equalFold "assets" m.1 = false)
    [("addresses"%string, json.Array [json.String "0x1"])] /\
  ar_Assets
    (json.Unmarshal_AccountRequest
       (json.Object [("addresses"%string, json.Array [json.String "0x1"])])).1
  = nil_slice.
Proof.
  split; [repeat constructor|]. split; [repeat constructor|].
  apply (AccountRequest_absent_assets
           [("addresses"%string, json.Array [json.String "0x1"])]);
    repeat constructor.
Defined.

(** * The amounts, in decimal notation *)

Section DecimalAmounts.

Import json.

Lemma decimal_char_ascii (c : ascii) :
  decimal_char c = true -> (N_of_ascii c <? 0x80)%N = true.
Proof.
  unfold decimal_char, utf8.between.
  intros [[[H|H]%orb_prop|H]%orb_prop|H]%orb_prop.
  - apply andb_prop in H as [_ H]. apply N.leb_le in H. apply N.ltb_lt. lia.
  - apply Ascii.eqb_eq in H. by subst c.
  - apply Ascii.eqb_eq in H. by subst c.
  - apply Ascii.eqb_eq in H. by subst c.
Qed.

Lemma decimal_string_ascii (s : string) :
  decimal_string s = true -> utf8.is_ascii s = true.
Proof.
  induction s as [|c rest IH]; [done|].
  cbn [decimal_string utf8.is_ascii]. intros [Hc Hrest]%andb_prop.
  by rewrite (decimal_char_ascii c Hc), (IH Hrest).
Qed.

(** The encoder leaves decimal notation as it is. *)
Lemma decimal_string_written (s : string) :
  decimal_string s = true -> toValidUTF8 s = s.
Proof. intros H. by apply ascii_amount_preserved, decimal_string_ascii. Qed.

(** C6 (as amended): for amounts in decimal notation, whenever the encoder
    accepts the contract, that is whenever the APY of its asset is neither
    NaN nor infinite, serializing succeeds, the three amounts are written
    as JSON strings holding the very same bytes, and deserializing reports
    no error and yields the identical strings; the same holds of the asset
    serialized on its own. *)
Theorem decimal_amounts_roundtrip (c : LendingContract) :
  decimal_string (CurrentAmount c) = true ->
  decimal_string (TotalSupply (Asset c)) = true ->
  decimal_string (MinimumAmount (Asset c)) = true ->
  int64_fields (Asset c) = true ->
  PrimFloat.is_finite (APY (Asset c)) = true ->
  (exists v va,
      Marshal_LendingContract c = Done v /\
      member "current_amount" v = Some (String (CurrentAmount c)) /\
      member "asset" v = Some va /\
      member "total_supply" va = Some (String (TotalSupply (Asset c))) /\
      member "minimum_amount" va = Some (String (MinimumAmount (Asset c)))) /\
  (exists r,
      roundtrip_LendingContract c = Done r /\
      r.2 = None /\
      CurrentAmount r.1 = CurrentAmount c /\
      TotalSupply (Asset r.1) = TotalSupply (Asset c) /\
      MinimumAmount (Asset r.1) = MinimumAmount (Asset c)) /\
  (exists r,
      roundtrip_AssetInfo (Asset c) = Done r /\
      r.2 = None /\
      TotalSupply r.1 = TotalSupply (Asset c) /\
      MinimumAmount r.1 = MinimumAmount (Asset c)).
Proof.
  intros Hca Hts Hma Hint Hfin.
  apply decimal_string_written in Hca, Hts, Hma.
  destruct (proj2 (Marshal_AssetInfo_accepts (Asset c)) Hfin) as [va Hva].
  destruct (proj2 (Marshal_LendingContract_outcome c)) as [v Hv]; [by exists va|].
  assert (roundtrip_LendingContract c = Done (Unmarshal_LendingContract v)) as Hr.
  { unfold roundtrip_LendingContract. by rewrite Hv. }
  assert (roundtrip_AssetInfo (Asset c) = Done (Unmarshal_AssetInfo va)) as Hra.
  { unfold roundtrip_AssetInfo. by rewrite Hva. }
  split; [|split].
  - destruct (Marshal_LendingContract_members c v Hv) as (Hm1 & va' & Hm2 & Hva').
    assert (va' = va) as -> by congruence.
    destruct (Marshal_AssetInfo_members (Asset c) va Hva) as (Hm3 & Hm4 & _).
    exists v, va. rewrite Hca in Hm1. rewrite Hts in Hm3. rewrite Hma in Hm4.
    done.
  - exists (Unmarshal_LendingContract v). split; [done|].
    rewrite (roundtrip_LendingContract_reread c _ Hint Hr).
    cbn [fst snd reread_LendingContract reread_AssetInfo Asset CurrentAmount
         TotalSupply MinimumAmount].
    rewrite !reread_toValidUTF8, Hca, Hts, Hma. done.
  - exists (Unmarshal_AssetInfo va). split; [done|].
    rewrite (roundtrip_AssetInfo_reread (Asset c) _ Hint Hra).
    cbn [fst snd reread_AssetInfo TotalSupply MinimumAmount].
    rewrite !reread_toValidUTF8, Hts, Hma. done.
Qed.

End DecimalAmounts.

(** C6, as stated, fails where the encoder refuses the entity: the amounts
    of [unpriced] are in decimal notation, but its APY is NaN, so that
    serializing returns an error and there is nothing to deserialize. *)
Lemma nan_apy_blocks_roundtrip :
  decimal_string (CurrentAmount unpriced) = true /\
  decimal_string (TotalSupply (Asset unpriced)) = true /\
  decimal_string (MinimumAmount (Asset unpriced)) = true /\
  json.roundtrip_LendingContract unpriced
  = json.Failed (error_value "json: unsupported value: NaN") /\
  json.roundtrip_AssetInfo (Asset unpriced)
  = json.Failed (error_value "json: unsupported value: NaN") /\
  ~ (exists r,
        json.roundtrip_LendingContract unpriced = json.Done r /\
        CurrentAmount r.1 = CurrentAmount unpriced /\
        TotalSupply (Asset r.1) = TotalSupply (Asset unpriced) /\
        MinimumAmount (Asset r.1) = MinimumAmount (Asset unpriced)).
Proof.
  assert (json.roundtrip_LendingContract unpriced
          = json.Failed (error_value "json: unsupported value: NaN")) as H
    by (vm_compute; reflexivity).
  split; [reflexivity|]. split; [reflexivity|]. split; [reflexivity|].
  split; [exact H|]. split; [vm_compute; reflexivity|].
  intros (r & Hr & _). rewrite H in Hr. discriminate.
Qed.

Lemma decimal_amounts_roundtrip_witness :
  decimal_string (CurrentAmount dai_contract) = true /\
  decimal_string (TotalSupply (Asset dai_contract)) = true /\
  decimal_string (MinimumAmount (Asset dai_contract)) = true /\
  json.int64_fields (Asset dai_contract) = true /\
  PrimFloat.is_finite (APY (Asset dai_contract)) = true /\
  exists r,
    json.roundtrip_LendingContract dai_contract = json.Done r /\
    r.2 = None /\
    CurrentAmount r.1 = CurrentAmount dai_contract /\
    TotalSupply (Asset r.1) = TotalSupply (Asset dai_contract) /\
    MinimumAmount (Asset r.1) = MinimumAmount (Asset dai_contract).
Proof.
  do 5 (split; [vm_compute; reflexivity|]).
  apply (decimal_amounts_roundtrip dai_contract); vm_compute; reflexivity.
Defined.
